(** * FocusX.Pomodoro: the session scheduler, the enforcement calls and the
      night monitor of [FocusX-120min.py], embedded in Rocq.

    The Python class [PomodoroBlocker] is one mutable object shared by the
    Tk main loop and by daemon threads.  The embedding keeps its attributes
    as the fields of one record, [App], next to the pieces of the outside
    world the methods act on (the pynput listener objects, the Tk windows,
    the audio endpoint, standard output, the Tk [after] queue and the
    timer threads).  Every method is a function on [App]; the threads are
    small-step machines and a run of the program is a list of events.

    Not embedded: widget layout, fonts and colours, the choice of the
    break message and the clock label of the night overlay
    ([update_time]); none of them writes an attribute the methods below
    read.  Of the closure [update_display] of the break overlay, the text
    it computes from the display variable is embedded. *)

From Stdlib Require Import ZArith QArith Qround String List Lia DecimalString.
From Stdlib Require Import Ascii DecimalZ.
From stdpp Require Import base list.

Open Scope Z_scope.

(** ** Data *)

(** The two branches of [_run_timer], selected by [is_work_session]. *)
Inductive phase := Work | Break.

(** A pynput listener object.  [start()] and [stop()] flip [l_running]:
    the field records the calls the program makes on the object.  What the
    listener's own thread does when an input event arrives (the callbacks
    passed by [block_input] all return [False]) is outside the embedding. *)
Inductive device := Mouse | Keyboard.

Record listener := { l_device : device; l_running : bool }.

(** Callables handed to [root.after(0, ...)]. *)
Inductive callback := CbCreateNightOverlay | CbRemoveNightOverlay.

(** Control points of a thread running [_run_timer]:
    - [PLoop]: at [while self.is_running] of [_run_timer];
    - [PCount d]: at [while duration > 0 and self.is_running] of
      [countdown], the local [duration] being [d];
    - [PSleep d]: inside [time.sleep(1)];
    - [PToggle]: at [if self.is_running] after [countdown] returned;
    - [PDone]: the thread function has returned. *)
Inductive pc :=
| PLoop
| PCount (d : Z)
| PSleep (d : Z)
| PToggle
| PDone.

(** What [print] wrote: fixed texts, and the one formatted line of
    [sync_time] kept as its two arguments. *)
Inductive printed :=
| Text (s : string)
| Synced (server : string) (offset : Q).

(** Ghost record of what happened, in order; no method reads it. *)
Inductive obs :=
| OBlock | OUnblock | OMute | OUnmute
| OEnter (p : phase)
| OSleep
| OCountdownEnd (d : Z).

Record App := mkApp {
  (* attributes of [self] *)
  work_duration : Z;
  rest_duration : Z;
  is_running : bool;
  is_work_session : bool;
  ntp_servers : list string;
  time_offset : Q;
  overlay : option nat;
  night_overlay : option nat;
  blocking : bool;
  mouse_listener : option nat;
  keyboard_listener : option nat;
  audio : bool;                 (* [self.audio] is not [None] *)
  time_var : string;
  status_var : string;
  (* the world the methods act on *)
  windows : list bool;          (* Toplevel windows: still displayed? *)
  listeners : list listener;    (* listener objects, by allocation order *)
  muted : bool;                 (* mute flag of the audio endpoint *)
  setmute_raises : bool;        (* does [SetMute] raise? *)
  stdout : list printed;
  after_queue : list callback;
  timers : list pc;             (* threads running [_run_timer] *)
  history : list obs
}.

(** Attribute assignment, one setter per attribute that is written. *)

Definition set_is_running (v : bool)
  '(mkApp wd rd _ ws srv off ov nov bl ml kl au tv sv wins ls mu smr out q ts h) :=
  mkApp wd rd v ws srv off ov nov bl ml kl au tv sv wins ls mu smr out q ts h.
Definition set_is_work_session (v : bool)
  '(mkApp wd rd run _ srv off ov nov bl ml kl au tv sv wins ls mu smr out q ts h) :=
  mkApp wd rd run v srv off ov nov bl ml kl au tv sv wins ls mu smr out q ts h.
Definition set_time_offset (v : Q)
  '(mkApp wd rd run ws srv _ ov nov bl ml kl au tv sv wins ls mu smr out q ts h) :=
  mkApp wd rd run ws srv v ov nov bl ml kl au tv sv wins ls mu smr out q ts h.
Definition set_overlay (v : option nat)
  '(mkApp wd rd run ws srv off _ nov bl ml kl au tv sv wins ls mu smr out q ts h) :=
  mkApp wd rd run ws srv off v nov bl ml kl au tv sv wins ls mu smr out q ts h.
Definition set_night_overlay (v : option nat)
  '(mkApp wd rd run ws srv off ov _ bl ml kl au tv sv wins ls mu smr out q ts h) :=
  mkApp wd rd run ws srv off ov v bl ml kl au tv sv wins ls mu smr out q ts h.
Definition set_blocking (v : bool)
  '(mkApp wd rd run ws srv off ov nov _ ml kl au tv sv wins ls mu smr out q ts h) :=
  mkApp wd rd run ws srv off ov nov v ml kl au tv sv wins ls mu smr out q ts h.
Definition set_mouse_listener (v : option nat)
  '(mkApp wd rd run ws srv off ov nov bl _ kl au tv sv wins ls mu smr out q ts h) :=
  mkApp wd rd run ws srv off ov nov bl v kl au tv sv wins ls mu smr out q ts h.
Definition set_keyboard_listener (v : option nat)
  '(mkApp wd rd run ws srv off ov nov bl ml _ au tv sv wins ls mu smr out q ts h) :=
  mkApp wd rd run ws srv off ov nov bl ml v au tv sv wins ls mu smr out q ts h.
Definition set_time_var (v : string)
  '(mkApp wd rd run ws srv off ov nov bl ml kl au _ sv wins ls mu smr out q ts h) :=
  mkApp wd rd run ws srv off ov nov bl ml kl au v sv wins ls mu smr out q ts h.
Definition set_status_var (v : string)
  '(mkApp wd rd run ws srv off ov nov bl ml kl au tv _ wins ls mu smr out q ts h) :=
  mkApp wd rd run ws srv off ov nov bl ml kl au tv v wins ls mu smr out q ts h.
Definition set_windows (v : list bool)
  '(mkApp wd rd run ws srv off ov nov bl ml kl au tv sv _ ls mu smr out q ts h) :=
  mkApp wd rd run ws srv off ov nov bl ml kl au tv sv v ls mu smr out q ts h.
Definition set_listeners (v : list listener)
  '(mkApp wd rd run ws srv off ov nov bl ml kl au tv sv wins _ mu smr out q ts h) :=
  mkApp wd rd run ws srv off ov nov bl ml kl au tv sv wins v mu smr out q ts h.
Definition set_muted (v : bool)
  '(mkApp wd rd run ws srv off ov nov bl ml kl au tv sv wins ls _ smr out q ts h) :=
  mkApp wd rd run ws srv off ov nov bl ml kl au tv sv wins ls v smr out q ts h.
Definition set_stdout (v : list printed)
  '(mkApp wd rd run ws srv off ov nov bl ml kl au tv sv wins ls mu smr _ q ts h) :=
  mkApp wd rd run ws srv off ov nov bl ml kl au tv sv wins ls mu smr v q ts h.
Definition set_after_queue (v : list callback)
  '(mkApp wd rd run ws srv off ov nov bl ml kl au tv sv wins ls mu smr out _ ts h) :=
  mkApp wd rd run ws srv off ov nov bl ml kl au tv sv wins ls mu smr out v ts h.
Definition set_timers (v : list pc)
  '(mkApp wd rd run ws srv off ov nov bl ml kl au tv sv wins ls mu smr out q _ h) :=
  mkApp wd rd run ws srv off ov nov bl ml kl au tv sv wins ls mu smr out q v h.
Definition set_history (v : list obs)
  '(mkApp wd rd run ws srv off ov nov bl ml kl au tv sv wins ls mu smr out q ts _) :=
  mkApp wd rd run ws srv off ov nov bl ml kl au tv sv wins ls mu smr out q ts v.

Definition print (p : printed) (s : App) : App := set_stdout (stdout s ++ [p]) s.
Definition record (o : obs) (s : App) : App := set_history (history s ++ [o]) s.

(** ** Listener objects and windows *)

(** [Listener(...)]: a fresh object, not yet started; its index is returned. *)
Definition new_listener (d : device) (s : App) : nat * App :=
  (length (listeners s),
   set_listeners (listeners s ++ [{| l_device := d; l_running := false |}]) s).

Definition set_running (b : bool) (l : listener) : listener :=
  {| l_device := l_device l; l_running := b |}.

Definition listener_start (i : nat) (s : App) : App :=
  set_listeners (alter (set_running true) i (listeners s)) s.

Definition listener_stop (i : nat) (s : App) : App :=
  set_listeners (alter (set_running false) i (listeners s)) s.

(** [tk.Toplevel(self.root)]: a fresh window, displayed. *)
Definition new_toplevel (s : App) : nat * App :=
  (length (windows s), set_windows (windows s ++ [true]) s).

(** [w.destroy()]; destroying a window twice is accepted by Tk. *)
Definition destroy (w : nat) (s : App) : App :=
  set_windows (alter (fun _ => false) w (windows s)) s.

(** ** Enforcement: [block_input], [unblock_input], [mute_audio],
       [unmute_audio] *)

Definition block_input (s : App) : App :=
  let s := record OBlock s in
  let s := set_blocking true s in
  let '(m, s) := new_listener Mouse s in
  let s := set_mouse_listener (Some m) s in
  let '(k, s) := new_listener Keyboard s in
  let s := set_keyboard_listener (Some k) s in
  let s := listener_start m s in
  listener_start k s.

Definition unblock_input (s : App) : App :=
  let s := record OUnblock s in
  let s := set_blocking false s in
  let s := match mouse_listener s with
           | Some m => listener_stop m s
           | None => s
           end in
  match keyboard_listener s with
  | Some k => listener_stop k s
  | None => s
  end.

Definition mute_audio (s : App) : App :=
  let s := record OMute s in
  if audio s then
    if setmute_raises s then print (Text "Could not mute audio") s
    else set_muted true s
  else s.

Definition unmute_audio (s : App) : App :=
  let s := record OUnmute s in
  if audio s then
    if setmute_raises s then print (Text "Could not unmute audio") s
    else set_muted false s
  else s.

(** What the device does: some listener object is started. *)
Definition input_intercepted (s : App) : bool :=
  existsb l_running (listeners s).

(** The enforcement state of the specification, read off the world. *)
Record EnforcementState := { inputBlocked : bool; audioMuted : bool }.

Definition enforcement (s : App) : EnforcementState :=
  {| inputBlocked := input_intercepted s; audioMuted := muted s |}.

(** ** Time source: [sync_time], [get_accurate_time], [is_night_time] *)

(** What [ntp_client.request(server, timeout=5)] does for one server:
    it answers, it raises one of the three exceptions [sync_time]
    catches, or it raises anything else. *)
Inductive ntp_outcome :=
| NtpResponse (offset : Q)
| NtpException
| SocketGaierror
| SocketTimeout
| OtherException.

Inductive completion := Returned | Raised.

(** The [for server in self.ntp_servers] loop with its [try]/[except];
    the [print] after the loop is reached when no server answered. *)
Fixpoint sync_loop (net : string -> ntp_outcome) (servers : list string)
    (s : App) : App * completion :=
  match servers with
  | [] =>
      (print (Text "Warning: Could not sync with any time server, using system time") s,
       Returned)
  | server :: rest =>
      match net server with
      | NtpResponse off =>
          let s := set_time_offset off s in
          (print (Synced server (time_offset s)) s, Returned)
      | NtpException | SocketGaierror | SocketTimeout => sync_loop net rest s
      | OtherException => (s, Raised)
      end
  end.

Definition sync_time (net : string -> ntp_outcome) (s : App) : App * completion :=
  sync_loop net (ntp_servers s) s.

(** One reading of the machine's clock: [time.time()] in seconds, and the
    offset of the local zone from UTC in seconds. *)
Record clock := { time_time : Q; utcoffset : Z }.

(** A [datetime] is kept as its wall-clock reading in the local zone, in
    seconds; [hour] is its [.hour]. *)
Definition datetime := Q.

Definition datetime_now (c : clock) : datetime :=
  (time_time c + inject_Z (utcoffset c))%Q.

Definition fromtimestamp (c : clock) (t : Q) : datetime :=
  (t + inject_Z (utcoffset c))%Q.

Definition hour (t : datetime) : Z := (Qfloor t / 3600) mod 24.

(** Python truth value of a number. *)
Definition truthy (x : Q) : bool := negb (Qeq_bool x 0).

Definition get_accurate_time (c : clock) (s : App) : datetime :=
  let current_time := datetime_now c in
  if truthy (time_offset s)
  then fromtimestamp c (time_time c + time_offset s)%Q
  else current_time.

Definition is_night_time (c : clock) (s : App) : bool :=
  let current_time := get_accurate_time c s in
  (0 <=? hour current_time) && (hour current_time <? 6).

(** ** Night overlay and the monitor loop *)

Definition create_night_overlay (s : App) : App :=
  match night_overlay s with
  | Some _ => s
  | None =>
      let '(w, s) := new_toplevel s in
      let s := set_night_overlay (Some w) s in
      block_input s
  end.

Definition remove_night_overlay (s : App) : App :=
  match night_overlay s with
  | Some w =>
      let s := destroy w s in
      let s := set_night_overlay None s in
      unblock_input s
  | None => s
  end.

Definition root_after (cb : callback) (s : App) : App :=
  set_after_queue (after_queue s ++ [cb]) s.

(** One iteration of [monitor_time], up to its [time.sleep(30)]; [c] is
    the clock as read by this iteration. *)
Definition monitor_poll (c : clock) (s : App) : App :=
  if is_night_time c s then
    match night_overlay s with
    | None => root_after CbCreateNightOverlay s
    | Some _ => s
    end
  else
    match night_overlay s with
    | Some _ => root_after CbRemoveNightOverlay s
    | None => s
    end.

Definition run_callback (cb : callback) (s : App) : App :=
  match cb with
  | CbCreateNightOverlay => create_night_overlay s
  | CbRemoveNightOverlay => remove_night_overlay s
  end.

(** The Tk main loop runs the oldest pending [after] callback. *)
Definition dispatch (s : App) : App :=
  match after_queue s with
  | [] => s
  | cb :: q => run_callback cb (set_after_queue q s)
  end.

(** ** Session scheduler *)

(** [f"{n:02d}"] *)
Definition pad2 (n : Z) : string :=
  let digits := NilZero.string_of_int (Z.to_int n) in
  if (String.length digits <? 2)%nat then String.append "0" digits else digits.

(** [minutes, seconds = divmod(duration, 60)] and
    [f"{minutes:02d}:{seconds:02d}"] *)
Definition mmss (duration : Z) : string :=
  let minutes := duration / 60 in
  let seconds := duration mod 60 in
  String.append (pad2 minutes) (String.append ":" (pad2 seconds)).

Definition create_overlay (s : App) : App :=
  let '(w, s) := new_toplevel s in
  set_overlay (Some w) s.

Definition destroy_overlay_if_any (s : App) : App :=
  match overlay s with
  | Some w => destroy w s
  | None => s
  end.

Definition cleanup (s : App) : App :=
  let s := destroy_overlay_if_any s in
  let s := unblock_input s in
  let s := unmute_audio s in
  let s := set_time_var "120:00" s in
  let s := set_status_var "Ready to focus" s in
  set_is_work_session true s.

Definition stop_timer (s : App) : App :=
  let s := set_is_running false s in
  cleanup s.

Definition start_timer (s : App) : App :=
  let s := set_is_running true s in
  let s := set_is_work_session true s in
  set_timers (timers s ++ [PLoop]) s.

(** One step of a thread running [_run_timer], from control point [p];
    the blocks between two control points run without interruption.  The
    program has no lock, so there another thread can run inside such a
    block; the runs below show only the interleavings at control points. *)
Definition timer_step (p : pc) (s : App) : pc * App :=
  match p with
  | PLoop =>
      if is_running s then
        if is_work_session s then
          let s := record (OEnter Work) s in
          let s := set_status_var "Work Session" s in
          let s := unblock_input s in
          let s := unmute_audio s in
          let s := destroy_overlay_if_any s in
          (PCount (work_duration s), s)
        else
          let s := record (OEnter Break) s in
          let s := set_status_var "Break Time" s in
          let s := create_overlay s in
          let s := block_input s in
          let s := mute_audio s in
          (PCount (rest_duration s), s)
      else (PDone, s)
  | PCount d =>
      if (0 <? d) && is_running s then
        (PSleep d, set_time_var (mmss d) s)
      else (PToggle, record (OCountdownEnd d) s)
  | PSleep d => (PCount (d - 1), record OSleep s)
  | PToggle =>
      if is_running s
      then (PLoop, set_is_work_session (negb (is_work_session s)) s)
      else (PLoop, s)
  | PDone => (PDone, s)
  end.

(** ** Runs *)

(** What can happen next: a button is pressed, timer thread [i] takes a
    step, the monitor thread polls with clock reading [c], the main loop
    runs a pending callback, or the hourly thread syncs. *)
Inductive event :=
| EvStart
| EvStop
| EvTimer (i : nat)
| EvPoll (c : clock)
| EvDispatch
| EvSync (net : string -> ntp_outcome).

Definition step (e : event) (s : App) : App :=
  match e with
  | EvStart => start_timer s
  | EvStop => stop_timer s
  | EvTimer i =>
      match timers s !! i with
      | Some p =>
          let '(p', s) := timer_step p s in
          set_timers (<[i := p']> (timers s)) s
      | None => s
      end
  | EvPoll c => monitor_poll c s
  | EvDispatch => dispatch s
  | EvSync net => fst (sync_time net s)
  end.

Definition run (es : list event) (s : App) : App :=
  fold_left (fun s e => step e s) es s.

(** ** Start-up *)

(** [__init__] up to [init_audio_control]: the attribute values the
    constructor assigns.  [endpoint] says whether an audio endpoint could
    be activated; [m] and [r] are the mute flag of the device and whether
    its [SetMute] raises. *)
Definition fresh (endpoint m r : bool) : App :=
  {| work_duration := 120 * 60;
     rest_duration := 7 * 60;
     is_running := false;
     is_work_session := true;
     ntp_servers := ["pool.ntp.org"%string; "time.google.com"%string;
                     "time.windows.com"%string; "time.apple.com"%string];
     time_offset := 0;
     overlay := None;
     night_overlay := None;
     blocking := false;
     mouse_listener := None;
     keyboard_listener := None;
     audio := endpoint;
     time_var := "120:00";
     status_var := "Ready to focus";
     windows := [];
     listeners := [];
     muted := m;
     setmute_raises := r;
     stdout := if endpoint then [] else [Text "Could not initialize audio control"];
     after_queue := [];
     timers := [];
     history := [] |}.

(** [PomodoroBlocker()]: the constructor ends with [self.sync_time()]. *)
Definition PomodoroBlocker (endpoint m r : bool) (net : string -> ntp_outcome)
  : App * completion :=
  sync_time net (fresh endpoint m r).

(** [run()] before it enters the main loop. *)
Definition run_app (c : clock) (s : App) : App :=
  if is_night_time c s then create_night_overlay s else s.

(** * Definitions used in the statements and the proofs *)

Definition started (d : device) : listener := {| l_device := d; l_running := true |}.

Definition stopped (d : device) : listener := {| l_device := d; l_running := false |}.

(** [stop()] on the listener an attribute refers to, if it refers to one. *)
Definition stop_ref (r : option nat) (ls : list listener) : list listener :=
  match r with
  | Some i => alter (set_running false) i ls
  | None => ls
  end.

(** The test of the specification: the hour lies in [[startHour, endHour)]. *)
Definition isNight_spec (startHour endHour h : Z) : bool :=
  (startHour <=? h) && (h <? endHour).

(** Clock readings used in the examples: local time of day [h:m:s] on the
    day after the epoch, in a zone [z] seconds east of UTC. *)
Definition clock_at (z h m sec : Z) : clock :=
  {| time_time := inject_Z (86400 + h * 3600 + m * 60 + sec - z); utcoffset := z |}.

(** The outcomes the [except] clause of [sync_time] catches. *)
Definition caught (o : ntp_outcome) : bool :=
  match o with
  | NtpException | SocketGaierror | SocketTimeout => true
  | NtpResponse _ | OtherException => false
  end.

Definition warning : printed :=
  Text "Warning: Could not sync with any time server, using system time".

(** A state in which an earlier synchronisation succeeded with an offset
    of five seconds, and a network on which every request times out. *)
Definition net_answers_5 (server : string) : ntp_outcome := NtpResponse 5.

Definition net_down (server : string) : ntp_outcome := SocketTimeout.

Definition synced_5 : App := fst (PomodoroBlocker true false false net_answers_5).

(** The phases entered, in order, as the history records them. *)
Fixpoint entered (h : list obs) : list phase :=
  match h with
  | [] => []
  | OEnter p :: h => p :: entered h
  | _ :: h => entered h
  end.

(** Seconds slept in [countdown], as the history records them. *)
Fixpoint elapsed (h : list obs) : Z :=
  match h with
  | [] => 0
  | OSleep :: h => 1 + elapsed h
  | _ :: h => elapsed h
  end.

Definition phase_of (work : bool) : phase := if work then Work else Break.

(** No two consecutive phases are equal. *)
Definition alternating (l : list phase) : Prop :=
  forall i p q, l !! i = Some p -> l !! S i = Some q -> p <> q.

(** The part of the state the phase sequence depends on. *)
Definition sess (s : App) : bool * bool * list pc * list phase :=
  (is_running s, is_work_session s, timers s, entered (history s)).

(** One step of a timer thread, on the part of the state the phase
    sequence depends on. *)
Definition timer_step_sess (p : pc) (v : bool * bool * list phase)
  : pc * (bool * bool * list phase) :=
  let '(rn, ws, tr) := v in
  match p with
  | PLoop =>
      if rn then (PCount 0, (rn, ws, tr ++ [phase_of ws])) else (PDone, v)
  | PCount d => (if (0 <? d) && rn then PSleep d else PToggle, v)
  | PSleep d => (PCount (d - 1), v)
  | PToggle => (PLoop, (rn, if rn then negb ws else ws, tr))
  | PDone => (PDone, v)
  end.

(** Control points up to the value of the local [duration]. *)
Definition same_point (p p' : pc) : Prop :=
  match p, p' with
  | PLoop, PLoop | PToggle, PToggle | PDone, PDone => True
  | PCount _, PCount _ | PSleep _, PSleep _ => True
  | _, _ => False
  end.

Definition is_start (e : event) : bool :=
  match e with EvStart => true | _ => false end.

(** What holds of a session's thread at control point [p], the flags being
    [rn] and [ws] and [tr] the phases it entered so far. *)
Definition good (p : pc) (rn ws : bool) (tr : list phase) : Prop :=
  alternating tr /\
  (rn = true ->
   match p with
   | PLoop => last tr <> Some (phase_of ws)
   | PCount _ | PSleep _ | PToggle => last tr = Some (phase_of ws)
   | PDone => True
   end).

(** The invariant of a session: [ts0] are the threads of earlier sessions,
    [e0] the phases entered before this session was started, and the last
    thread is the session's own. *)
Definition session_inv (ts0 : list pc) (e0 : list phase) (s : App) : Prop :=
  exists p tr,
    timers s = ts0 ++ [p] /\
    entered (history s) = e0 ++ tr /\
    good p (is_running s) (is_work_session s) tr.

(** The attributes [work_duration] and [rest_duration] given other values
    than the constructor's, as a test of the class would assign them. *)
Definition with_durations (w r : Z)
  '(mkApp _ _ run ws srv off ov nov bl ml kl au tv sv wins ls mu smr out q ts h) :=
  mkApp w r run ws srv off ov nov bl ml kl au tv sv wins ls mu smr out q ts h.

(** Work for two seconds, rest for one. *)
Definition quick : App := with_durations 2 1 (fresh true false false).

Definition after_sleeps (thr : list pc) (d : Z) (n : nat) (s : App) : App :=
  set_timers (thr ++ [PCount (d - Z.of_nat n)])
    (set_history (history s ++ repeat OSleep n)
       (set_time_var (match n with O => time_var s | S _ => mmss (d - Z.of_nat n + 1) end) s)).

(** Calls of [block_input], as the history records them. *)
Fixpoint block_calls (h : list obs) : nat :=
  match h with
  | [] => 0
  | OBlock :: h => S (block_calls h)
  | _ :: h => block_calls h
  end.

Definition is_poll (e : event) : bool :=
  match e with EvPoll _ => true | _ => false end.

(** A poll whose clock reading lies in the night window (for the offset
    held by [s]), or the main loop running a pending callback. *)
Definition night_poll_or_dispatch (s : App) (e : event) : bool :=
  match e with
  | EvPoll c => is_night_time c s
  | EvDispatch => true
  | _ => false
  end.

(** The main loop runs every callback that is pending. *)
Definition drain (s : App) : App :=
  run (repeat EvDispatch (length (after_queue s))) s.

(** The invariant of a night: [off0] and [b0] are the offset and the number
    of [block_input] calls when the polls begin, [polled] says whether a
    poll has taken place. *)
Definition night_inv (off0 : Q) (b0 : nat) (polled : bool) (s : App) : Prop :=
  time_offset s = off0 /\
  Forall (fun cb => cb = CbCreateNightOverlay) (after_queue s) /\
  ((night_overlay s = None /\ block_calls (history s) = b0) \/
   (night_overlay s <> None /\ block_calls (history s) = S b0)) /\
  (polled = true -> night_overlay s <> None \/ after_queue s <> []).

(** Three polls at 01:00:00, 01:00:30 and 01:01:00; the main loop is busy
    during the first two and runs the callbacks after the second. *)
Definition three_night_polls : list event :=
  [EvPoll (clock_at 0 1 0 0); EvPoll (clock_at 0 1 0 30); EvDispatch; EvDispatch;
   EvPoll (clock_at 0 1 1 0)].

(** Every listener that is started is one of the two the attributes
    [mouse_listener] and [keyboard_listener] refer to. *)
Definition only_tracked_running (s : App) : Prop :=
  forall i l, listeners s !! i = Some l -> l_running l = true ->
              mouse_listener s = Some i \/ keyboard_listener s = Some i.

(** The state of the counterexample before the thread's first step. *)
Definition night_then_start : App :=
  run [EvPoll (clock_at 0 1 0 0); EvDispatch; EvStart] (fresh true false false).

(** A session is started at 23:59; the poll of 00:00:30 finds the night
    window, the overlay is created and [block_input] called.  The work
    countdown runs to its end, the break phase is entered and calls
    [block_input] again.  Then the stop button is pressed, and the thread
    takes the three steps left to it. *)
Definition stop_in_break_after_nightfall : list event :=
  [EvStart]
  ++ repeat (EvTimer 0) 181
  ++ [EvPoll (clock_at 0 0 0 30); EvDispatch]
  ++ repeat (EvTimer 0) (Z.to_nat 14223)
  ++ [EvStop]
  ++ repeat (EvTimer 0) 3.

(** Timer threads that have not returned. *)
Definition alive (p : pc) : bool :=
  match p with PDone => false | _ => true end.

Definition active_sessions (s : App) : nat :=
  length (List.filter alive (timers s)).

(** The start button is pressed, the thread enters the work phase and
    sleeps one second of its countdown; the start button is pressed again
    and the second thread takes its first two steps. *)
Definition start_twice : list event :=
  [EvStart; EvTimer 0; EvTimer 0; EvTimer 0; EvTimer 0;
   EvStart; EvTimer 1; EvTimer 1].

(** In daytime: the start button pressed twice in a row; the first thread
    runs through its work countdown and enters the break phase, the second
    thread then takes its first step, the stop button is pressed, and both
    threads take the steps left to them. *)
Definition stop_after_double_start : list event :=
  [EvStart; EvStart]
  ++ repeat (EvTimer 0) (Z.to_nat 14404)
  ++ [EvTimer 1; EvStop]
  ++ repeat (EvTimer 0) 3 ++ repeat (EvTimer 1) 3.

(** The start button, the thread's entry into the work phase and the
    beginning of its first sleep; then, within that second, the stop
    button and the start button again, and the first two steps of the
    second thread.  Both threads are now asleep in a work countdown. *)
Definition stop_then_start : list event :=
  [EvStart; EvTimer 0; EvTimer 0; EvStop; EvStart; EvTimer 1; EvTimer 1].

(** Both threads step in turn, [n] times. *)
Definition lockstep (n : nat) : list event :=
  concat (repeat [EvTimer 0; EvTimer 1] n).

(** * Further definitions: the break overlay's display *)

(** [s.split(sep)] for a one-character separator. *)
Fixpoint split_on (sep : ascii) (s : string) : list string :=
  match s with
  | EmptyString => [EmptyString]
  | String c rest =>
      if Ascii.eqb c sep then EmptyString :: split_on sep rest
      else match split_on sep rest with
           | part :: parts => String c part :: parts
           | [] => [String c EmptyString]
           end
  end.

(** [int(s)] on strings made of an optional minus sign and decimal digits;
    [None] is the [ValueError].  (The other spellings [int] accepts, with
    blanks, a plus sign or underscores, are not produced by any method of
    the class and are not given a value here.) *)
Definition py_int (s : string) : option Z :=
  option_map Z.of_int (NilZero.int_of_string s).

(** The expression
    [int(self.time_var.get().split(':')[0]) * 60 + int(self.time_var.get().split(':')[1])]
    of [update_display]; [None] is its [ValueError] or [IndexError]. *)
Definition remaining_shown (tv : string) : option Z :=
  match py_int (nth 0 (split_on ":"%char tv) EmptyString), split_on ":"%char tv with
  | Some minutes, _ :: part :: _ =>
      match py_int part with
      | Some seconds => Some (minutes * 60 + seconds)
      | None => None
      end
  | _, _ => None
  end.

(** What one run of the closure [update_display] of [create_overlay] does:
    nothing when [self.overlay] is [None]; otherwise it sets the label to
    [text] and, when [reroll] holds, picks a new break message; or it
    raises. *)
Inductive display_outcome :=
| NotShown
| Shown (text : string) (reroll : bool)
| DisplayError.

Definition update_display (s : App) : display_outcome :=
  match overlay s with
  | None => NotShown
  | Some _ =>
      match remaining_shown (time_var s) with
      | Some remaining =>
          let mins := remaining / 60 in
          let secs := remaining mod 60 in
          Shown (String.append "Break time remaining: "
                   (String.append (pad2 mins) (String.append ":" (pad2 secs))))
                (remaining mod 5 =? 0)
      | None => DisplayError
      end
  end.

(** A string without the character [sep]. *)
Fixpoint lacks (sep : ascii) (s : string) : bool :=
  match s with
  | EmptyString => true
  | String c rest => negb (Ascii.eqb c sep) && lacks sep rest
  end.

(** * Further definitions: networks and runs used in the statements *)

(** The first server cannot be resolved, the second answers with an offset
    of 0.75 s, the others would raise an exception that is not caught. *)
Definition net_second_answers (server : string) : ntp_outcome :=
  if String.eqb server "pool.ntp.org" then SocketGaierror
  else if String.eqb server "time.google.com" then NtpResponse (3 # 4)
  else OtherException.

(** The first server fails with an [NTPException], the others raise an
    exception that is not caught. *)
Definition net_broken (server : string) : ntp_outcome :=
  if String.eqb server "pool.ntp.org" then NtpException else OtherException.

(** Calls of [unblock_input], as the history records them. *)
Fixpoint unblock_calls (h : list obs) : nat :=
  match h with
  | [] => 0
  | OUnblock :: h => S (unblock_calls h)
  | _ :: h => unblock_calls h
  end.

(** A poll whose clock reading lies outside the night window (for the
    offset held by [s]), or the main loop running a pending callback. *)
Definition day_poll_or_dispatch (s : App) (e : event) : bool :=
  match e with
  | EvPoll c => negb (is_night_time c s)
  | EvDispatch => true
  | _ => false
  end.

(** The invariant of a morning: [off0] and [u0] are the offset and the
    number of [unblock_input] calls when the polls begin, [polled] says
    whether a poll has taken place. *)
Definition day_inv (off0 : Q) (u0 : nat) (polled : bool) (s : App) : Prop :=
  time_offset s = off0 /\
  Forall (fun cb => cb = CbRemoveNightOverlay) (after_queue s) /\
  ((night_overlay s <> None /\ unblock_calls (history s) = u0) \/
   (night_overlay s = None /\ unblock_calls (history s) = S u0 /\
    blocking s = false)) /\
  (polled = true -> night_overlay s = None \/ after_queue s <> []).

(** Three polls at 06:00:10, 06:00:40 and 06:01:10; the main loop runs the
    callbacks after the second. *)
Definition three_morning_polls : list event :=
  [EvPoll (clock_at 0 6 0 10); EvPoll (clock_at 0 6 0 40); EvDispatch; EvDispatch;
   EvPoll (clock_at 0 6 1 10)].

(** * Further definitions: a timer thread after [stop_timer] *)





(** * Further definitions: enforcement along a session *)

Definition phase_label (work : bool) : string :=
  if work then "Work Session" else "Break Time".

(** The break overlay is displayed ([b] true), or no window the attribute
    [overlay] refers to is displayed ([b] false). *)
Definition overlay_shown (b : bool) (s : App) : Prop :=
  if b then exists w, overlay s = Some w /\ windows s !! w = Some true
  else forall w, overlay s = Some w -> windows s !! w <> Some true.

(** Input, flag, audio, label and overlay all say "break" ([b] true) or
    all say "work" ([b] false); [au0] and [smr0] tell whether the audio
    endpoint exists and whether its [SetMute] raises. *)
Definition enforced (au0 smr0 b : bool) (s : App) : Prop :=
  input_intercepted s = b /\
  blocking s = b /\
  only_tracked_running s /\
  (au0 = true -> smr0 = false -> muted s = b) /\
  status_var s = phase_label (negb b) /\
  overlay_shown b s.

(** What holds at control point [p] of the only timer thread of a session
    that nothing interferes with. *)
Definition follows (au0 smr0 : bool) (p : pc) (s : App) : Prop :=
  is_running s = true /\ audio s = au0 /\ setmute_raises s = smr0 /\
  match p with
  | PLoop =>
      if is_work_session s then only_tracked_running s
      else input_intercepted s = false
  | PCount _ | PToggle => enforced au0 smr0 (negb (is_work_session s)) s
  | PSleep d => enforced au0 smr0 (negb (is_work_session s)) s /\ time_var s = mmss d
  | PDone => False
  end.

(** * Further definitions: the listeners the attributes refer to *)

(** The part of the state [block_input] and [unblock_input] act on. *)
Definition lview (s : App) : bool * option nat * option nat * list listener :=
  (blocking s, mouse_listener s, keyboard_listener s, listeners s).

(** Listener [i] is [l] and neither attribute refers to it. *)
Definition orphaned (i : nat) (l : listener) (s : App) : Prop :=
  listeners s !! i = Some l /\
  mouse_listener s <> Some i /\
  keyboard_listener s <> Some i.

(** * Properties *)

(** ** What the four enforcement calls change *)

Lemma alter_fresh_pair (ls : list listener) (a b : listener) (f : listener -> listener) :
  alter f (length (ls ++ [a])) (alter f (length ls) ((ls ++ [a]) ++ [b]))
  = ls ++ [f a; f b].
Proof.
  rewrite <- app_assoc. simpl.
  rewrite (alter_app_r_alt f ls [a; b] (length ls)) by lia.
  rewrite Nat.sub_diag. simpl.
  rewrite alter_app_r_alt by (rewrite length_app; simpl; lia).
  rewrite length_app. simpl.
  replace (length ls + 1 - length ls)%nat with 1%nat by lia.
  reflexivity.
Qed.

Lemma block_input_listeners (s : App) :
  listeners (block_input s) = listeners s ++ [started Mouse; started Keyboard].
Proof. destruct s; cbn. apply alter_fresh_pair. Qed.

Lemma block_input_refs (s : App) :
  mouse_listener (block_input s) = Some (length (listeners s)) /\
  keyboard_listener (block_input s) = Some (S (length (listeners s))).
Proof. destruct s; cbn. rewrite length_app. cbn. split; f_equal; lia. Qed.

Lemma block_input_blocking (s : App) : blocking (block_input s) = true.
Proof. destruct s; reflexivity. Qed.

Lemma block_input_muted (s : App) : muted (block_input s) = muted s.
Proof. destruct s; reflexivity. Qed.

Lemma unblock_input_listeners (s : App) :
  listeners (unblock_input s)
  = stop_ref (keyboard_listener s) (stop_ref (mouse_listener s) (listeners s)).
Proof. destruct s as [? ? ? ? ? ? ? ? ? [m|] [k|] ? ? ? ? ? ? ? ? ? ? ?]; reflexivity. Qed.

Lemma unblock_input_blocking (s : App) : blocking (unblock_input s) = false.
Proof. destruct s as [? ? ? ? ? ? ? ? ? [m|] [k|] ? ? ? ? ? ? ? ? ? ? ?]; reflexivity. Qed.

Lemma unblock_input_refs (s : App) :
  mouse_listener (unblock_input s) = mouse_listener s /\
  keyboard_listener (unblock_input s) = keyboard_listener s.
Proof. destruct s as [? ? ? ? ? ? ? ? ? [m|] [k|] ? ? ? ? ? ? ? ? ? ? ?]; split; reflexivity. Qed.

Lemma existsb_running_app (l1 l2 : list listener) :
  existsb l_running (l1 ++ l2) = existsb l_running l1 || existsb l_running l2.
Proof. apply existsb_app. Qed.

(** The listeners of two [block_input] calls in a row, after one
    [unblock_input]. *)
Lemma block_block_unblock_listeners (s : App) :
  listeners (unblock_input (block_input (block_input s)))
  = listeners s ++ [started Mouse; started Keyboard; stopped Mouse; stopped Keyboard].
Proof.
  rewrite unblock_input_listeners.
  destruct (block_input_refs (block_input s)) as [-> ->].
  rewrite (block_input_listeners (block_input s)), (block_input_listeners s).
  set (l1 := listeners s ++ [started Mouse; started Keyboard]).
  cbn [stop_ref].
  rewrite (alter_app_r_alt _ l1 _ (length l1)) by lia.
  rewrite Nat.sub_diag. cbn [alter list_alter].
  rewrite alter_app_r_alt by lia.
  replace (S (length l1) - length l1)%nat with 1%nat by lia. cbn.
  subst l1. rewrite <- app_assoc. reflexivity.
Qed.

(** C10.  After two consecutive calls of [block_input] and one call of
    [unblock_input], from any state: the two listeners the first call
    created (at positions [n] and [n+1] of the allocation order, [n] being
    the number of listeners that existed before) are still started, the two
    the second call created ([n+2], [n+3]) are stopped, and so the input is
    still intercepted although [blocking] is [False]. *)
Theorem unblock_after_double_block_leaves_first_pair (s : App) :
  let n := length (listeners s) in
  let s' := unblock_input (block_input (block_input s)) in
  listeners s' !! n = Some (started Mouse) /\
  listeners s' !! (n + 1)%nat = Some (started Keyboard) /\
  listeners s' !! (n + 2)%nat = Some (stopped Mouse) /\
  listeners s' !! (n + 3)%nat = Some (stopped Keyboard) /\
  length (listeners s') = (n + 4)%nat /\
  input_intercepted s' = true /\
  blocking s' = false.
Proof.
  intros n s'. subst s'. unfold input_intercepted.
  rewrite unblock_input_blocking, block_block_unblock_listeners.
  fold n.
  repeat split.
  - replace n with (n + 0)%nat at 1 by lia. subst n.
    rewrite lookup_app_r by lia. replace (_ - _)%nat with 0%nat by lia. reflexivity.
  - subst n. rewrite lookup_app_r by lia.
    replace (_ - _)%nat with 1%nat by lia. reflexivity.
  - subst n. rewrite lookup_app_r by lia.
    replace (_ - _)%nat with 2%nat by lia. reflexivity.
  - subst n. rewrite lookup_app_r by lia.
    replace (_ - _)%nat with 3%nat by lia. reflexivity.
  - rewrite length_app. reflexivity.
  - rewrite existsb_running_app. cbn. apply orb_true_r.
Qed.

Lemma block_input_intercepts (s : App) : input_intercepted (block_input s) = true.
Proof.
  unfold input_intercepted. rewrite block_input_listeners, existsb_running_app.
  cbn. apply orb_true_r.
Qed.

(** The part of the idempotence contract that the code keeps: a second
    [block_input] leaves the enforcement state as the first one made it. *)
Lemma block_input_twice_same_enforcement (s : App) :
  enforcement (block_input (block_input s)) = enforcement (block_input s).
Proof.
  unfold enforcement.
  rewrite !block_input_intercepts, !block_input_muted. reflexivity.
Qed.

(** C5.  [block_input] called on a state that is already blocked (here:
    once after start-up) is not a no-op.  The enforcement state stays the
    same, but a second pair of listeners is created and started and the
    attributes now refer to it; one [unblock_input] then releases the input
    after a single [block_input] and does not after two. *)
Theorem block_input_when_blocked_starts_second_pair :
  let s1 := block_input (fresh true false false) in
  let s2 := block_input s1 in
  enforcement s2 = enforcement s1 /\
  listeners s1 = [started Mouse; started Keyboard] /\
  listeners s2 = [started Mouse; started Keyboard; started Mouse; started Keyboard] /\
  mouse_listener s2 = Some 2%nat /\
  keyboard_listener s2 = Some 3%nat /\
  enforcement (unblock_input s1) = {| inputBlocked := false; audioMuted := false |} /\
  enforcement (unblock_input s2) = {| inputBlocked := true; audioMuted := false |}.
Proof. cbv zeta. repeat split; vm_compute; reflexivity. Qed.

(** ** Night window *)

Lemma hour_range (t : datetime) : 0 <= hour t < 24.
Proof. unfold hour. apply Z.mod_pos_bound. lia. Qed.

(** C8.  [is_night_time] is a function of the clock reading and the stored
    offset only, it returns for every reading, and its value is the
    membership of the local hour of the corrected time in the window
    [[0, 6)]: hour 0 gives true, hour 3 gives true, hour 6 gives false
    (shown on the test itself and on readings at 00:00:00, 03:00:00,
    05:59:59 and 06:00:00 local time). *)
Theorem is_night_time_is_window_membership (c : clock) (s : App) :
  is_night_time c s = isNight_spec 0 6 (hour (get_accurate_time c s)) /\
  0 <= hour (get_accurate_time c s) < 24 /\
  isNight_spec 0 6 0 = true /\
  isNight_spec 0 6 3 = true /\
  isNight_spec 0 6 6 = false /\
  is_night_time (clock_at 7200 0 0 0) (fresh true false false) = true /\
  is_night_time (clock_at 7200 3 0 0) (fresh true false false) = true /\
  is_night_time (clock_at 7200 5 59 59) (fresh true false false) = true /\
  is_night_time (clock_at 7200 6 0 0) (fresh true false false) = false.
Proof.
  split; [reflexivity|].
  split; [apply hour_range|].
  repeat split; vm_compute; reflexivity.
Qed.

(** ** Time synchronisation *)

Lemma sync_loop_all_caught (net : string -> ntp_outcome) (servers : list string) (s : App) :
  Forall (fun server => caught (net server) = true) servers ->
  sync_loop net servers s = (print warning s, Returned).
Proof.
  induction 1 as [|server rest Hc _ IH]; [reflexivity|].
  cbn. destruct (net server); try discriminate Hc; exact IH.
Qed.

(** The first server that answers is used; the ones after it are not asked. *)
Lemma sync_loop_first_answer (net : string -> ntp_outcome)
    (failed : list string) (server : string) (rest : list string) (off : Q) (s : App) :
  Forall (fun x => caught (net x) = true) failed ->
  net server = NtpResponse off ->
  sync_loop net (failed ++ server :: rest) s
  = (print (Synced server off) (set_time_offset off s), Returned).
Proof.
  intros Hf Hs. induction Hf as [|x l Hc _ IH].
  - cbn. rewrite Hs. destruct s; reflexivity.
  - cbn. destruct (net x); try discriminate Hc; exact IH.
Qed.

Lemma print_time_offset (p : printed) (s : App) : time_offset (print p s) = time_offset s.
Proof. destruct s; reflexivity. Qed.

Lemma print_stdout (p : printed) (s : App) : stdout (print p s) = stdout s ++ [p].
Proof. destruct s; reflexivity. Qed.

Lemma get_accurate_time_no_offset (c : clock) (s : App) :
  (time_offset s == 0)%Q -> get_accurate_time c s = datetime_now c.
Proof.
  intros H. unfold get_accurate_time, truthy.
  rewrite (Qeq_eq_bool _ _ H). reflexivity.
Qed.

(** C9, as stated, fails: after a synchronisation that set the offset to
    5 s, a re-synchronisation in which every server times out returns
    normally and prints the warning, but the offset is still 5 s and the
    corrected time is five seconds ahead of the local clock. *)
Lemma failed_resync_keeps_offset :
  let r := sync_time net_down synced_5 in
  snd r = Returned /\
  Forall (fun server => caught (net_down server) = true) (ntp_servers synced_5) /\
  last (stdout (fst r)) = Some warning /\
  time_offset (fst r) = 5%Q /\
  ~ (time_offset (fst r) == 0)%Q /\
  ~ (get_accurate_time (clock_at 0 12 0 0) (fst r) == datetime_now (clock_at 0 12 0 0))%Q.
Proof.
  cbv zeta. repeat split.
  - repeat constructor.
  - vm_compute. discriminate.
  - vm_compute. discriminate.
Qed.

(** C9, amended.  When every request to a server of the list ends in one
    of the caught exceptions, [sync_time] returns normally, has printed the
    warning as its last line and nothing else, and has left the offset as
    it was; where that offset is 0 (as after start-up without a successful
    synchronisation) the corrected time is the local clock time. *)
Theorem sync_time_all_unreachable (net : string -> ntp_outcome) (s : App) :
  Forall (fun server => caught (net server) = true) (ntp_servers s) ->
  sync_time net s = (print warning s, Returned) /\
  time_offset (fst (sync_time net s)) = time_offset s /\
  stdout (fst (sync_time net s)) = stdout s ++ [warning] /\
  ((time_offset s == 0)%Q ->
   forall c, get_accurate_time c (fst (sync_time net s)) = datetime_now c).
Proof.
  intros H. unfold sync_time. rewrite (sync_loop_all_caught _ _ _ H). cbn [fst].
  rewrite print_time_offset, print_stdout. repeat split.
  intros H0 c. apply get_accurate_time_no_offset. rewrite print_time_offset. exact H0.
Qed.

Lemma sync_time_all_unreachable_witness :
  Forall (fun server => caught (net_down server) = true)
         (ntp_servers (fresh true false false)) /\
  sync_time net_down (fresh true false false)
  = (print warning (fresh true false false), Returned).
Proof.
  split.
  - repeat constructor.
  - apply (sync_time_all_unreachable net_down (fresh true false false)).
    repeat constructor.
Defined.

(** ** The session scheduler *)

Lemma entered_app (a b : list obs) : entered (a ++ b) = entered a ++ entered b.
Proof.
  induction a as [|o a IH]; [reflexivity|].
  destruct o; cbn; rewrite IH; reflexivity.
Qed.

Lemma elapsed_app (a b : list obs) : elapsed (a ++ b) = elapsed a + elapsed b.
Proof.
  induction a as [|o a IH]; [reflexivity|].
  destruct o; cbn [app elapsed]; rewrite IH; lia.
Qed.

Lemma elapsed_repeat_sleep (n : nat) : elapsed (repeat OSleep n) = Z.of_nat n.
Proof. induction n as [|n IH]; [reflexivity|]. cbn [repeat elapsed]. lia. Qed.

Lemma entered_repeat_sleep (n : nat) : entered (repeat OSleep n) = [].
Proof. induction n as [|n IH]; [reflexivity|]. exact IH. Qed.

Lemma alternating_nil : alternating [].
Proof. intros i p q H. discriminate H. Qed.

Lemma alternating_snoc (l : list phase) (p : phase) :
  alternating l -> last l <> Some p -> alternating (l ++ [p]).
Proof.
  intros Hl Hlast i a b Ha Hb.
  destruct (decide (S i < length l)%nat) as [Hlt|Hge].
  - rewrite lookup_app_l in Ha by lia. rewrite lookup_app_l in Hb by lia.
    exact (Hl i a b Ha Hb).
  - assert (S i = length l) as Hi.
    { apply lookup_lt_Some in Hb. rewrite length_app in Hb. cbn in Hb. lia. }
    rewrite lookup_app_l in Ha by lia.
    rewrite lookup_app_r in Hb by lia.
    rewrite Hi, Nat.sub_diag in Hb. cbn in Hb. injection Hb as <-.
    intros ->. apply Hlast. rewrite last_lookup.
    rewrite <- Hi. cbn. exact Ha.
Qed.

Ltac destruct_app s :=
  destruct s as [wd rd rn ws srv off ov nov bl ml kl au tv sv wins ls mu smr out q ts h].

Ltac sess_frame :=
  unfold sess; cbn; rewrite ?entered_app; cbn; rewrite ?app_nil_r; reflexivity.

Lemma sess_stop_timer (s : App) :
  sess (stop_timer s) = (false, true, timers s, entered (history s)).
Proof. destruct_app s. destruct ov, ml, kl, au, smr; sess_frame. Qed.

Lemma sess_create_night_overlay (s : App) : sess (create_night_overlay s) = sess s.
Proof. destruct_app s. destruct nov; sess_frame. Qed.

Lemma sess_remove_night_overlay (s : App) : sess (remove_night_overlay s) = sess s.
Proof. destruct_app s. destruct nov, ml, kl; sess_frame. Qed.

Lemma sess_monitor_poll (c : clock) (s : App) : sess (monitor_poll c s) = sess s.
Proof.
  unfold monitor_poll. destruct (is_night_time c s); destruct_app s; destruct nov; sess_frame.
Qed.

Lemma sess_dispatch (s : App) : sess (dispatch s) = sess s.
Proof.
  unfold dispatch. destruct (after_queue s) as [|cb rest] eqn:E; [reflexivity|].
  destruct cb; cbn [run_callback].
  - rewrite sess_create_night_overlay. destruct_app s. sess_frame.
  - rewrite sess_remove_night_overlay. destruct_app s. sess_frame.
Qed.

Lemma sess_sync_loop (net : string -> ntp_outcome) (servers : list string) (s : App) :
  sess (fst (sync_loop net servers s)) = sess s.
Proof.
  induction servers as [|server rest IH]; cbn.
  - destruct_app s. sess_frame.
  - destruct (net server); try exact IH; destruct_app s; sess_frame.
Qed.

Lemma sess_start_timer (s : App) :
  sess (start_timer s) = (true, true, timers s ++ [PLoop], entered (history s)).
Proof. destruct_app s. sess_frame. Qed.

Lemma timer_step_abstracts (p : pc) (s : App) :
  let r := timer_step p s in
  let a := timer_step_sess p (is_running s, is_work_session s, entered (history s)) in
  same_point (fst r) (fst a) /\
  (is_running (snd r), is_work_session (snd r), entered (history (snd r))) = snd a /\
  timers (snd r) = timers s.
Proof.
  destruct_app s. destruct p; cbn.
  - destruct rn; cbn; [|auto].
    destruct ws; cbn; destruct ov, ml, kl, au, smr; cbn;
      rewrite ?entered_app; cbn; rewrite ?app_nil_r; auto.
  - destruct (0 <? d), rn; cbn; rewrite ?entered_app; cbn; rewrite ?app_nil_r; auto.
  - rewrite entered_app; cbn; rewrite app_nil_r; auto.
  - destruct rn; cbn; auto.
  - auto.
Qed.

Lemma good_same_point (p p' : pc) (rn ws : bool) (tr : list phase) :
  same_point p p' -> good p' rn ws tr -> good p rn ws tr.
Proof.
  unfold good. destruct p, p'; cbn; intros Hs H; try contradiction; exact H.
Qed.

Lemma phase_of_negb (ws : bool) : phase_of ws <> phase_of (negb ws).
Proof. destruct ws; discriminate. Qed.

Lemma good_timer_step (p : pc) (rn ws : bool) (tr : list phase) :
  good p rn ws tr ->
  let '(p', (rn', ws', tr')) := timer_step_sess p (rn, ws, tr) in
  good p' rn' ws' tr' /\ exists t, tr' = tr ++ t.
Proof.
  intros [Halt Hp]. destruct p; cbn.
  - destruct rn.
    + split; [|eexists; reflexivity]. split.
      * apply alternating_snoc; auto.
      * intros _. apply last_snoc.
    + split; [|exists []; rewrite app_nil_r; reflexivity].
      split; [exact Halt|discriminate].
  - split; [|exists []; rewrite app_nil_r; reflexivity].
    split; [exact Halt|]. intros Hr. specialize (Hp Hr).
    destruct ((0 <? d) && rn); exact Hp.
  - split; [|exists []; rewrite app_nil_r; reflexivity].
    split; [exact Halt|]. exact Hp.
  - split; [|exists []; rewrite app_nil_r; reflexivity].
    split; [exact Halt|]. intros Hr. specialize (Hp Hr). subst rn.
    rewrite Hp. intros [= E]. exact (phase_of_negb ws E).
  - split; [|exists []; rewrite app_nil_r; reflexivity].
    split; [exact Halt|]. exact Hp.
Qed.

Section OneSession.

(** The threads of earlier sessions have all returned. *)
Variable ts0 : list pc.
Variable e0 : list phase.
Hypothesis ts0_done : Forall (fun p => p = PDone) ts0.

Lemma session_inv_sess (s s' : App) :
  sess s' = sess s -> session_inv ts0 e0 s -> session_inv ts0 e0 s'.
Proof.
  unfold sess. intros [= Hr Hw Ht He] (p & tr & H1 & H2 & H3).
  exists p, tr. rewrite Hr, Hw, Ht, He. auto.
Qed.

Lemma set_timers_same (s : App) : set_timers (timers s) s = s.
Proof. destruct s; reflexivity. Qed.

Lemma set_timers_fields (v : list pc) (s : App) :
  timers (set_timers v s) = v /\
  is_running (set_timers v s) = is_running s /\
  is_work_session (set_timers v s) = is_work_session s /\
  history (set_timers v s) = history s.
Proof. destruct s; cbn; auto. Qed.

Lemma session_inv_step (e : event) (s : App) :
  is_start e = false -> session_inv ts0 e0 s -> session_inv ts0 e0 (step e s).
Proof.
  intros He Hinv. destruct e as [| |i|c| |net]; cbn [step]; try discriminate He.
  - (* stop_timer *)
    destruct Hinv as (p & tr & H1 & H2 & [Halt _]).
    pose proof (sess_stop_timer s) as [= Hr Hw Ht Hh].
    exists p, tr. rewrite Hr, Ht, Hh. repeat split; auto. discriminate.
  - (* a timer thread steps *)
    destruct Hinv as (p & tr & H1 & H2 & H3).
    destruct (timers s !! i) as [pi|] eqn:Ei;
      [|exists p, tr; auto].
    destruct (decide (i < length ts0)%nat) as [Hlt|Hge].
    + (* a thread that has returned *)
      assert (pi = PDone) as ->.
      { rewrite H1, lookup_app_l in Ei by lia.
        rewrite Forall_lookup in ts0_done. exact (ts0_done _ _ Ei). }
      cbn. rewrite list_insert_id by exact Ei. rewrite set_timers_same.
      exists p, tr. auto.
    + (* the thread of this session *)
      assert (i = length ts0) as ->.
      { apply lookup_lt_Some in Ei. rewrite H1, length_app in Ei. cbn in Ei. lia. }
      assert (pi = p) as ->.
      { rewrite H1, lookup_app_r, Nat.sub_diag in Ei by lia. cbn in Ei. congruence. }
      pose proof (timer_step_abstracts p s) as (Hsp & Hv & Ht).
      pose proof (good_timer_step p _ _ _ H3) as Hg.
      rewrite H2 in Hsp, Hv.
      destruct (timer_step p s) as [p' s1]. cbn [fst snd] in *.
      destruct (timer_step_sess p (is_running s, is_work_session s, tr))
        as [pa [[rn' ws'] tr']] eqn:Ea.
      destruct Hg as [Hg [t ->]].
      assert (timer_step_sess p (is_running s, is_work_session s, e0 ++ tr)
              = (pa, (rn', ws', e0 ++ tr ++ t))) as Eb.
      { clear -Ea. destruct p; cbn in *.
        - destruct (is_running s); injection Ea as <- <- <- Et.
          + apply app_inv_head in Et. subst t. rewrite <- app_assoc. reflexivity.
          + rewrite <- (app_nil_r tr) in Et at 1. apply app_inv_head in Et.
            subst t. rewrite app_nil_r. reflexivity.
        - injection Ea as <- <- <- Et. rewrite <- (app_nil_r tr) in Et at 1.
          apply app_inv_head in Et. subst t. rewrite app_nil_r. reflexivity.
        - injection Ea as <- <- <- Et. rewrite <- (app_nil_r tr) in Et at 1.
          apply app_inv_head in Et. subst t. rewrite app_nil_r. reflexivity.
        - injection Ea as <- <- <- Et. rewrite <- (app_nil_r tr) in Et at 1.
          apply app_inv_head in Et. subst t. rewrite app_nil_r. reflexivity.
        - injection Ea as <- <- <- Et. rewrite <- (app_nil_r tr) in Et at 1.
          apply app_inv_head in Et. subst t. rewrite app_nil_r. reflexivity. }
      rewrite Eb in Hv, Hsp. cbn [fst snd] in Hv, Hsp.
      injection Hv as Hr Hw Hh.
      destruct (set_timers_fields (<[length ts0 := p']> (timers s1)) s1)
        as (F1 & F2 & F3 & F4).
      exists p', (tr ++ t). rewrite F1, F2, F3, F4, Hr, Hw, Hh, Ht, H1.
      split.
      { rewrite insert_app_r_alt, Nat.sub_diag by lia. reflexivity. }
      split; [reflexivity|].
      apply (good_same_point _ pa); assumption.
  - apply (session_inv_sess s); [apply sess_monitor_poll|exact Hinv].
  - apply (session_inv_sess s); [apply sess_dispatch|exact Hinv].
  - apply (session_inv_sess s); [apply sess_sync_loop|exact Hinv].
Qed.

Lemma session_inv_run (es : list event) (s : App) :
  forallb (fun e => negb (is_start e)) es = true ->
  session_inv ts0 e0 s -> session_inv ts0 e0 (run es s).
Proof.
  revert s. induction es as [|e es IH]; intros s Hes Hinv; [exact Hinv|].
  cbn in Hes. apply andb_true_iff in Hes as [He Hes].
  apply negb_true_iff in He.
  cbn. apply IH; [exact Hes|]. apply session_inv_step; assumption.
Qed.

End OneSession.

(** What does hold of the phase sequence: when every earlier timer thread
    has returned, [start_timer] is not called again, and the other events
    (steps of the thread, [stop_timer], polls, callbacks, synchronisations)
    fall between the control points of the thread, the phases entered
    after the start alternate.  Both conditions are needed: see
    [stop_then_start_repeats_work] for a second [start_timer]; and a
    [stop_timer] that falls between the [while] test and the [if] test of
    [_run_timer], which the control points do not separate, makes the
    thread enter the work phase again. *)
Theorem phases_alternate (s : App) (es : list event) :
  Forall (fun p => p = PDone) (timers s) ->
  forallb (fun e => negb (is_start e)) es = true ->
  exists tr,
    entered (history (run es (start_timer s))) = entered (history s) ++ tr /\
    alternating tr.
Proof.
  intros Hdone Hes.
  assert (session_inv (timers s) (entered (history s)) (run es (start_timer s)))
    as (p & tr & _ & Htr & [Halt _]).
  { apply session_inv_run; [exact Hdone|exact Hes|].
    pose proof (sess_start_timer s) as [= Hr Hw Ht Hh].
    exists PLoop, []. rewrite Hr, Hw, Ht, Hh, app_nil_r.
    repeat split; [apply alternating_nil|discriminate]. }
  exists tr. auto.
Qed.

Lemma phases_alternate_witness :
  Forall (fun p => p = PDone) (timers quick) /\
  forallb (fun e => negb (is_start e)) (repeat (EvTimer 0) 20 ++ [EvStop]) = true /\
  exists tr,
    entered (history (run (repeat (EvTimer 0) 20 ++ [EvStop]) (start_timer quick)))
    = entered (history quick) ++ tr /\
    alternating tr.
Proof.
  split; [constructor|]. split; [reflexivity|].
  apply (phases_alternate quick (repeat (EvTimer 0) 20 ++ [EvStop])).
  - constructor.
  - reflexivity.
Defined.

(** The run of the witness enters four phases. *)
Example quick_phases :
  entered (history (run (repeat (EvTimer 0) 20 ++ [EvStop]) (start_timer quick)))
  = [Work; Break; Work; Break].
Proof. vm_compute. reflexivity. Qed.

(** C3.  Stop and start again within the first second of a session.
    [stop_timer] does not end the thread: it sleeps, and when it wakes
    [is_running] is [True] again, so it goes on beside the thread of the
    second [start_timer] (first part, the 120-minute configuration: two
    threads asleep in a work countdown).  What follows is shown with two
    seconds of work and one of rest.  If the two threads reach the end of
    their countdowns together, each toggles [is_work_session] before either
    tests it and both enter the work phase again: four entries into Work
    in a row.  If instead the first thread is a little ahead, it enters the
    break phase alone and the second thread, a moment later, enters the
    work phase for the second time in a row and undoes the break (flag,
    listeners, label) while the first thread is still in its break
    countdown. *)
Theorem stop_then_start_repeats_work :
  let restarted := run stop_then_start (fresh true false false) in
  let together := run (stop_then_start ++ lockstep 6) quick in
  let ahead :=
    run (stop_then_start ++ repeat (EvTimer 0) 7 ++ repeat (EvTimer 1) 6) quick in
  (timers restarted = [PSleep 7200; PSleep 7200] /\
   is_running restarted = true /\
   active_sessions restarted = 2%nat) /\
  (active_sessions together = 2%nat /\
   entered (history together) = [Work; Work; Work; Work]) /\
  (timers ahead = [PSleep 1; PCount 2] /\
   entered (history ahead) = [Work; Work; Break; Work] /\
   status_var ahead = "Work Session"%string /\
   blocking ahead = false /\
   inputBlocked (enforcement ahead) = false).
Proof. vm_compute. repeat split. Qed.

(** ** One work countdown *)

Lemma run_concat (es1 es2 : list event) (s : App) :
  run (es1 ++ es2) s = run es2 (run es1 s).
Proof. apply fold_left_app. Qed.

Lemma timer_step_timers (p : pc) (s : App) : timers (snd (timer_step p s)) = timers s.
Proof. apply (timer_step_abstracts p s). Qed.

Lemma step_own_timer (thr : list pc) (p : pc) (s : App) :
  timers s = thr ++ [p] ->
  step (EvTimer (length thr)) s
  = set_timers (thr ++ [fst (timer_step p s)]) (snd (timer_step p s)).
Proof.
  intros Ht. cbn [step].
  rewrite Ht, lookup_app_r, Nat.sub_diag by lia. cbn [lookup list_lookup].
  pose proof (timer_step_timers p s) as Hts.
  destruct (timer_step p s) as [p' s1]. cbn [fst snd] in *.
  rewrite Hts, Ht, insert_app_r_alt, Nat.sub_diag by lia. reflexivity.
Qed.

Lemma run_own_timer (thr : list pc) (p : pc) (es : list event) (s : App) :
  timers s = thr ++ [p] ->
  run (EvTimer (length thr) :: es) s
  = run es (set_timers (thr ++ [fst (timer_step p s)]) (snd (timer_step p s))).
Proof. intros Ht. cbn [run fold_left]. rewrite (step_own_timer thr p s Ht). reflexivity. Qed.

Lemma countdown_run (thr : list pc) (n : nat) :
  forall (d : Z) (s : App),
    timers s = thr ++ [PCount d] ->
    is_running s = true ->
    Z.of_nat n <= d ->
    run (repeat (EvTimer (length thr)) (2 * n)) s = after_sleeps thr d n s.
Proof.
  induction n as [|n IH]; intros d s Ht Hr Hd.
  - cbn. unfold after_sleeps. destruct_app s. cbn in *. subst ts.
    rewrite Z.sub_0_r, app_nil_r. reflexivity.
  - replace (2 * S n)%nat with (S (S (2 * n))) by lia.
    cbn [repeat run fold_left].
    rewrite (step_own_timer thr (PCount d) s Ht). cbn [timer_step].
    rewrite Hr. replace (0 <? d) with true by (symmetry; apply Z.ltb_lt; lia).
    cbn [andb fst snd].
    rewrite (step_own_timer thr (PSleep d)) by (destruct_app s; reflexivity).
    cbn [timer_step fst snd].
    fold (run (repeat (EvTimer (length thr)) (2 * n))).
    rewrite (IH (d - 1)); [| destruct_app s; reflexivity | destruct_app s; exact Hr | lia].
    unfold after_sleeps. destruct_app s. cbn [set_timers set_history set_time_var record history time_var].
    rewrite <- app_assoc. cbn [app repeat].
    f_equal.
    + destruct n; f_equal; lia.
    + do 3 f_equal. lia.
Qed.

Lemma start_then_enter_work (s : App) :
  let s1 := run [EvStart; EvTimer (length (timers s))] s in
  timers s1 = timers s ++ [PCount (work_duration s)] /\
  is_running s1 = true /\
  is_work_session s1 = true /\
  work_duration s1 = work_duration s /\
  rest_duration s1 = rest_duration s /\
  status_var s1 = "Work Session"%string /\
  history s1 = history s ++ [OEnter Work; OUnblock; OUnmute].
Proof.
  change (run [EvStart; EvTimer (length (timers s))] s)
    with (step (EvTimer (length (timers s))) (start_timer s)).
  rewrite (step_own_timer (timers s) PLoop) by (destruct_app s; reflexivity).
  destruct_app s. destruct ov, ml, kl, au, smr; cbn;
    rewrite <- ?app_assoc; cbn; repeat split; reflexivity.
Qed.

Lemma after_sleeps_fields (thr : list pc) (d : Z) (n : nat) (s : App) :
  let s2 := after_sleeps thr d n s in
  timers s2 = thr ++ [PCount (d - Z.of_nat n)] /\
  is_running s2 = is_running s /\
  is_work_session s2 = is_work_session s /\
  work_duration s2 = work_duration s /\
  rest_duration s2 = rest_duration s /\
  status_var s2 = status_var s /\
  history s2 = history s ++ repeat OSleep n.
Proof. destruct_app s. cbn. repeat split; reflexivity. Qed.

Lemma countdown_end_then_enter_break (thr : list pc) (s : App) :
  timers s = thr ++ [PCount 0] ->
  is_running s = true ->
  is_work_session s = true ->
  0 < rest_duration s ->
  let s3 := run (repeat (EvTimer (length thr)) 4) s in
  timers s3 = thr ++ [PSleep (rest_duration s)] /\
  time_var s3 = mmss (rest_duration s) /\
  status_var s3 = "Break Time"%string /\
  history s3 = history s ++ [OCountdownEnd 0; OEnter Break; OBlock; OMute].
Proof.
  intros Ht Hr Hw Hrest.
  destruct_app s. cbn in Ht, Hr, Hw, Hrest. subst ts rn ws.
  cbn [repeat rest_duration].
  rewrite (run_own_timer thr (PCount 0)) by reflexivity.
  cbn [timer_step Z.ltb Z.compare andb fst snd].
  rewrite (run_own_timer thr PToggle) by reflexivity.
  cbn [timer_step record set_timers set_history history is_running fst snd
       is_work_session set_is_work_session negb].
  rewrite (run_own_timer thr PLoop) by reflexivity.
  cbn [timer_step is_running is_work_session].
  assert ((0 <? rd) = true) as Hpos by (apply Z.ltb_lt; exact Hrest).
  destruct au, smr; cbn -[run];
    rewrite (run_own_timer thr (PCount rd)) by reflexivity;
    cbn [timer_step is_running]; rewrite Hpos; cbn;
    rewrite <- !app_assoc; cbn; repeat split; reflexivity.
Qed.

(** C6.  With positive durations [w] and [r], [start_timer] followed by
    the steps of the new timer thread alone: after [j < w] seconds of sleep
    the thread sleeps in the work countdown and the display shows [w - j]
    (so [w] at second 0); when [w] seconds have been slept the countdown
    has ended with its [duration] at 0, the break phase has been entered
    once, right after it, and the display shows [r].  The history of the
    [w] seconds is given in full: one entry into Work, [w] sleeps, the end
    of the countdown at 0, one entry into Break. *)
Theorem work_countdown_then_break (s : App) :
  0 < work_duration s ->
  0 < rest_duration s ->
  let k := length (timers s) in
  let w := Z.to_nat (work_duration s) in
  (forall j : nat, (j < w)%nat ->
     let sj := run (EvStart :: repeat (EvTimer k) (2 * j + 2)) s in
     timers sj !! k = Some (PSleep (work_duration s - Z.of_nat j)) /\
     time_var sj = mmss (work_duration s - Z.of_nat j) /\
     status_var sj = "Work Session"%string /\
     history sj = history s ++ [OEnter Work; OUnblock; OUnmute] ++ repeat OSleep j) /\
  let s' := run (EvStart :: repeat (EvTimer k) (2 * w + 5)) s in
  timers s' !! k = Some (PSleep (rest_duration s)) /\
  time_var s' = mmss (rest_duration s) /\
  status_var s' = "Break Time"%string /\
  history s' = history s ++ [OEnter Work; OUnblock; OUnmute] ++ repeat OSleep w
                 ++ [OCountdownEnd 0; OEnter Break; OBlock; OMute] /\
  entered (history s') = entered (history s) ++ [Work; Break] /\
  elapsed (history s') = elapsed (history s) + work_duration s.
Proof.
  intros Hw Hr k w.
  pose proof (start_then_enter_work s) as H1. cbv zeta in H1. fold k in H1.
  destruct H1 as (T1 & R1 & W1 & WD1 & RD1 & S1 & H1).
  set (s1 := run [EvStart; EvTimer k] s) in *.
  assert (forall n, run (EvStart :: repeat (EvTimer k) (S n)) s
                    = run (repeat (EvTimer k) n) s1) as Hsplit.
  { intros n. reflexivity. }
  split.
  - intros j Hj sj. subst sj.
    replace (2 * j + 2)%nat with (S (2 * j + 1)) by lia.
    rewrite Hsplit, repeat_app, run_concat.
    unfold k. rewrite (countdown_run (timers s) j (work_duration s) s1) by (auto; lia).
    pose proof (after_sleeps_fields (timers s) (work_duration s) j s1) as H2.
    cbv zeta in H2. destruct H2 as (T2 & R2 & W2 & WD2 & RD2 & S2 & H2).
    set (s2 := after_sleeps (timers s) (work_duration s) j s1) in *.
    cbn [repeat].
    rewrite (run_own_timer (timers s) (PCount (work_duration s - Z.of_nat j))) by exact T2.
    cbn [timer_step run fold_left]. rewrite R2, R1.
    replace (0 <? work_duration s - Z.of_nat j) with true
      by (symmetry; apply Z.ltb_lt; lia).
    cbn [andb fst snd].
    destruct s2. cbn in *. subst.
    rewrite lookup_app_r, Nat.sub_diag by lia. rewrite H1, <- app_assoc. auto.
  - intros s'. subst s'.
    replace (2 * w + 5)%nat with (S (2 * w + 4)) by lia.
    rewrite Hsplit, repeat_app, run_concat.
    unfold k. rewrite (countdown_run (timers s) w (work_duration s) s1) by (auto; lia).
    pose proof (after_sleeps_fields (timers s) (work_duration s) w s1) as H2.
    cbv zeta in H2. destruct H2 as (T2 & R2 & W2 & WD2 & RD2 & S2 & H2).
    set (s2 := after_sleeps (timers s) (work_duration s) w s1) in *.
    replace (work_duration s - Z.of_nat w) with 0 in T2 by lia.
    pose proof (countdown_end_then_enter_break (timers s) s2 T2) as H3.
    cbv zeta in H3.
    destruct H3 as (T3 & V3 & S3 & H3); [congruence | congruence | lia |].
    rewrite T3, V3, S3, H3, H2, H1, RD2, RD1.
    rewrite lookup_app_r, Nat.sub_diag by lia.
    rewrite !entered_app, !elapsed_app, entered_repeat_sleep, elapsed_repeat_sleep.
    rewrite <- !app_assoc. cbn [app entered elapsed lookup list_lookup].
    repeat split; try reflexivity. lia.
Qed.

Lemma work_countdown_then_break_witness :
  0 < work_duration quick /\
  0 < rest_duration quick /\
  (let s0 := run (EvStart :: repeat (EvTimer 0) 2) quick in
   timers s0 = [PSleep 2] /\ time_var s0 = "00:02"%string /\
   status_var s0 = "Work Session"%string) /\
  (let s2 := run (EvStart :: repeat (EvTimer 0) 9) quick in
   timers s2 = [PSleep 1] /\ time_var s2 = "00:01"%string /\
   status_var s2 = "Break Time"%string /\
   elapsed (history s2) = 2).
Proof.
  split; [reflexivity|]. split; [reflexivity|].
  destruct (work_countdown_then_break quick eq_refl eq_refl) as [_ H].
  cbv zeta in H. destruct H as (H1 & H2 & H3 & H4 & H5 & H6).
  split.
  - cbv zeta. repeat split; vm_compute; reflexivity.
  - cbv zeta. split; [vm_compute; reflexivity|].
    split; [exact H2|]. split; [exact H3|exact H6].
Defined.

(** The scenario of the specification, one second further: at second 3
    the thread is back in the work phase and the display shows 2. *)
Example quick_timeline :
  let at_second (n : nat) := run (EvStart :: repeat (EvTimer 0) n) quick in
  (time_var (at_second 2%nat), status_var (at_second 2%nat),
   elapsed (history (at_second 2%nat)), entered (history (at_second 2%nat)))
  = ("00:02"%string, "Work Session"%string, 0, [Work]) /\
  (time_var (at_second 9%nat), status_var (at_second 9%nat),
   elapsed (history (at_second 9%nat)), entered (history (at_second 9%nat)))
  = ("00:01"%string, "Break Time"%string, 2, [Work; Break]) /\
  (time_var (at_second 14%nat), status_var (at_second 14%nat),
   elapsed (history (at_second 14%nat)), entered (history (at_second 14%nat)))
  = ("00:02"%string, "Work Session"%string, 3, [Work; Break; Work]).
Proof. cbv zeta. repeat split; vm_compute; reflexivity. Qed.

(** ** The night monitor *)

Lemma block_calls_app (a b : list obs) :
  block_calls (a ++ b) = (block_calls a + block_calls b)%nat.
Proof.
  induction a as [|o a IH]; [reflexivity|].
  destruct o; cbn; rewrite IH; reflexivity.
Qed.

Lemma is_night_time_offset (c : clock) (s s' : App) :
  time_offset s' = time_offset s -> is_night_time c s' = is_night_time c s.
Proof. intros H. unfold is_night_time, get_accurate_time. rewrite H. reflexivity. Qed.

Lemma create_night_overlay_fields (s : App) :
  let s' := create_night_overlay s in
  time_offset s' = time_offset s /\
  after_queue s' = after_queue s /\
  night_overlay s' <> None /\
  block_calls (history s')
  = match night_overlay s with
    | Some _ => block_calls (history s)
    | None => S (block_calls (history s))
    end.
Proof.
  destruct_app s. destruct nov; cbn; rewrite ?block_calls_app; cbn.
  - repeat split. discriminate.
  - repeat split; [discriminate|lia].
Qed.

Lemma set_after_queue_fields (v : list callback) (s : App) :
  time_offset (set_after_queue v s) = time_offset s /\
  after_queue (set_after_queue v s) = v /\
  night_overlay (set_after_queue v s) = night_overlay s /\
  history (set_after_queue v s) = history s.
Proof. destruct s; cbn; auto. Qed.

Section NightPolls.

Variable off0 : Q.
Variable b0 : nat.

Lemma night_inv_dispatch (polled : bool) (s : App) :
  night_inv off0 b0 polled s ->
  night_inv off0 b0 polled (dispatch s) /\
  after_queue (dispatch s) = tail (after_queue s).
Proof.
  intros (Hoff & Hq & Hb & Hp). unfold dispatch.
  destruct (after_queue s) as [|cb rest] eqn:Eq.
  - split; [|exact Eq]. unfold night_inv. rewrite Eq. auto.
  - apply Forall_cons in Hq as [-> Hrest]. cbn [run_callback tail].
    destruct (set_after_queue_fields rest s) as (F1 & F2 & F3 & F4).
    destruct (create_night_overlay_fields (set_after_queue rest s))
      as (G1 & G2 & G3 & G4).
    rewrite F3, F4 in G4.
    split; [|congruence].
    unfold night_inv. rewrite G1, G2, F1, F2, G4.
    repeat split; auto.
    destruct Hb as [[Hn Hc]|[Hn Hc]].
    + right. rewrite Hn. auto.
    + right. destruct (night_overlay s); [auto|contradiction].
Qed.

Lemma night_inv_poll (polled : bool) (c : clock) (s : App) :
  is_night_time c s = true ->
  night_inv off0 b0 polled s -> night_inv off0 b0 true (monitor_poll c s).
Proof.
  intros Hn (Hoff & Hq & Hb & Hp). unfold monitor_poll, root_after. rewrite Hn.
  destruct (night_overlay s) as [w|] eqn:Eo.
  - unfold night_inv. rewrite Eo. repeat split; auto.
    all: intros _; left; discriminate.
  - destruct (set_after_queue_fields (after_queue s ++ [CbCreateNightOverlay]) s)
      as (F1 & F2 & F3 & F4).
    unfold night_inv. rewrite F1, F2, F3, F4, Eo. repeat split; auto.
    + apply Forall_app. split; [exact Hq|]. repeat constructor.
    + intros _. right. intros E. apply app_eq_nil in E as [_ E]. discriminate E.
Qed.

Lemma night_inv_run (s0 : App) (es : list event) :
  time_offset s0 = off0 ->
  forallb (night_poll_or_dispatch s0) es = true ->
  forall (polled : bool) (s : App),
    night_inv off0 b0 polled s ->
    night_inv off0 b0 (polled || existsb is_poll es) (run es s).
Proof.
  intros H0. induction es as [|e es IH]; intros Hes polled s Hinv.
  - cbn. rewrite orb_false_r. exact Hinv.
  - cbn in Hes. apply andb_true_iff in Hes as [He Hes].
    cbn [run fold_left existsb].
    fold (run es (step e s)).
    destruct e as [| |i|c| |net]; try discriminate He; cbn [step is_poll].
    + rewrite orb_true_l, orb_true_r.
      replace true with (true || existsb is_poll es) by reflexivity.
      apply IH; [exact Hes|].
      apply (night_inv_poll polled); [|exact Hinv].
      cbn in He. rewrite <- He. apply is_night_time_offset.
      destruct Hinv as [-> _]. auto.
    + rewrite orb_false_l. apply IH; [exact Hes|].
      apply night_inv_dispatch. exact Hinv.
Qed.

Lemma night_inv_drain (polled : bool) (n : nat) :
  forall s : App,
    night_inv off0 b0 polled s ->
    length (after_queue s) = n ->
    night_inv off0 b0 polled (run (repeat EvDispatch n) s) /\
    after_queue (run (repeat EvDispatch n) s) = [].
Proof.
  induction n as [|n IH]; intros s Hinv Hlen.
  - cbn. split; [exact Hinv|]. destruct (after_queue s); [reflexivity|discriminate].
  - cbn [repeat run fold_left step].
    destruct (night_inv_dispatch polled s Hinv) as [Hinv' Hq].
    apply IH; [exact Hinv'|].
    rewrite Hq. destruct (after_queue s); [discriminate|]. cbn in *. lia.
Qed.

End NightPolls.

(** C7.  From a state without night overlay and without pending
    callbacks, take any run made of polls whose clock readings all lie in
    the night window and of main-loop turns that run a pending callback, in
    any order, with at least one poll; once the main loop has run the
    callbacks still pending, [block_input] has been called exactly once
    more than before, whatever the number of polls. *)
Theorem night_polls_block_once (s : App) (es : list event) :
  night_overlay s = None ->
  after_queue s = [] ->
  forallb (night_poll_or_dispatch s) es = true ->
  existsb is_poll es = true ->
  block_calls (history (drain (run es s))) = S (block_calls (history s)) /\
  night_overlay (drain (run es s)) <> None.
Proof.
  intros Hov Hq Hes Hpoll.
  assert (night_inv (time_offset s) (block_calls (history s)) false s) as H0.
  { unfold night_inv. rewrite Hq. repeat split; auto. all: discriminate. }
  pose proof (night_inv_run _ _ s es eq_refl Hes false s H0) as H1.
  rewrite Hpoll in H1. cbn [orb] in H1.
  destruct (night_inv_drain _ _ true _ (run es s) H1 eq_refl) as [(_ & _ & Hb & Hp) Hempty].
  fold (drain (run es s)) in *.
  destruct (Hp eq_refl) as [Hn|Hn]; [|contradiction].
  destruct Hb as [[Hb _]|[_ Hb]]; [contradiction|]. auto.
Qed.

Lemma night_polls_block_once_witness :
  night_overlay (fresh true false false) = None /\
  after_queue (fresh true false false) = [] /\
  forallb (night_poll_or_dispatch (fresh true false false)) three_night_polls = true /\
  existsb is_poll three_night_polls = true /\
  block_calls (history (drain (run three_night_polls (fresh true false false)))) = 1%nat.
Proof.
  do 4 (split; [reflexivity|]).
  exact (proj1 (night_polls_block_once (fresh true false false) three_night_polls
                  eq_refl eq_refl eq_refl eq_refl)).
Defined.

(** ** Night window against the scheduler *)

Lemma stop_ref_lookup (r : option nat) (ls : list listener) (i : nat) (x : listener) :
  stop_ref r ls !! i = Some x -> l_running x = true ->
  ls !! i = Some x /\ r <> Some i.
Proof.
  destruct r as [j|]; cbn [stop_ref]; [|intros; split; [assumption|discriminate]].
  rewrite list_lookup_alter. destruct (decide (j = i)) as [->|Hne].
  - destruct (ls !! i) as [y|]; cbn; [|discriminate].
    intros [= <-]. cbn. discriminate.
  - intros H _. split; [exact H|]. intros [= E]. contradiction.
Qed.

Lemma stop_refs_release (s : App) :
  only_tracked_running s ->
  existsb l_running
    (stop_ref (keyboard_listener s) (stop_ref (mouse_listener s) (listeners s))) = false.
Proof.
  intros Htr. apply not_true_is_false. intros H.
  apply existsb_exists in H as (x & Hin & Hx).
  apply list_elem_of_In, list_elem_of_lookup in Hin as [i Hi].
  apply stop_ref_lookup in Hi as [Hi Hk]; [|exact Hx].
  apply stop_ref_lookup in Hi as [Hi Hm]; [|exact Hx].
  destruct (Htr i x Hi Hx); contradiction.
Qed.

Lemma work_entry_fields (s : App) :
  is_running s = true -> is_work_session s = true ->
  let s' := snd (timer_step PLoop s) in
  blocking s' = false /\
  night_overlay s' = night_overlay s /\
  time_offset s' = time_offset s /\
  listeners s'
  = stop_ref (keyboard_listener s) (stop_ref (mouse_listener s) (listeners s)).
Proof.
  intros Hr Hw. destruct_app s. cbn in Hr, Hw. subst rn ws.
  destruct ov, ml, kl, au, smr; cbn; auto.
Qed.

(** C2, as stated, fails.  At 01:00:00 the monitor polls, the night
    overlay is created and the input is blocked; the user then starts a
    session.  The first step of its thread enters the work phase and calls
    [unblock_input]: the clock is still in the night window, no listener is
    started any more and [blocking] is [False]; a further poll thirty
    seconds later, with the main loop run to the end, changes neither. *)
Lemma work_entry_unblocks_at_night :
  let c := clock_at 0 1 0 0 in
  let s := run [EvPoll c; EvDispatch; EvStart] (fresh true false false) in
  let s' := run [EvTimer 0] s in
  let s'' := drain (run [EvPoll (clock_at 0 1 0 30)] s') in
  (is_night_time c s = true /\
   inputBlocked (enforcement s) = true /\ blocking s = true) /\
  (is_night_time c s' = true /\
   inputBlocked (enforcement s') = false /\ blocking s' = false) /\
  (is_night_time (clock_at 0 1 0 30) s'' = true /\
   inputBlocked (enforcement s'') = false /\ blocking s'' = false).
Proof. cbv zeta. repeat split; vm_compute; reflexivity. Qed.

(** C2, amended.  While the night overlay is up, the scheduler's entry
    into the work phase is not superseded: it leaves [blocking] at
    [False] and stops the listeners the attributes refer to, so that the
    input is no longer intercepted when no other listener was started; the
    night overlay stays, and a later poll inside the night window changes
    nothing (it does not call [block_input] again). *)
Theorem work_entry_overrides_night_block (s : App) (w : nat) :
  night_overlay s = Some w ->
  is_running s = true ->
  is_work_session s = true ->
  let s' := snd (timer_step PLoop s) in
  blocking s' = false /\
  night_overlay s' = Some w /\
  (only_tracked_running s -> inputBlocked (enforcement s') = false) /\
  (forall c, is_night_time c s' = true -> monitor_poll c s' = s').
Proof.
  intros Hn Hr Hw s'.
  destruct (work_entry_fields s Hr Hw) as (Hb & Hno & _ & Hl). fold s' in Hb, Hno, Hl.
  rewrite Hn in Hno. repeat split; auto.
  - intros Htr. cbn. unfold input_intercepted. rewrite Hl.
    apply stop_refs_release. exact Htr.
  - intros c Hc. unfold monitor_poll. rewrite Hc, Hno. reflexivity.
Qed.

Lemma only_tracked_running_night_then_start : only_tracked_running night_then_start.
Proof.
  intros i l Hi Hl.
  destruct i as [|[|i]]; vm_compute in Hi |- *; [left|right|discriminate Hi]; reflexivity.
Qed.

Lemma work_entry_overrides_night_block_witness :
  night_overlay night_then_start = Some 0%nat /\
  is_running night_then_start = true /\
  is_work_session night_then_start = true /\
  blocking (snd (timer_step PLoop night_then_start)) = false /\
  inputBlocked (enforcement (snd (timer_step PLoop night_then_start))) = false.
Proof.
  do 3 (split; [reflexivity|]).
  destruct (work_entry_overrides_night_block night_then_start 0
              eq_refl eq_refl eq_refl) as (H1 & _ & H3 & _).
  split; [exact H1|].
  exact (H3 only_tracked_running_night_then_start).
Defined.

(** ** Emergency stop and restart *)


(** The literal of [cleanup] is the display of the constructor's
    [work_duration]. *)
Lemma cleanup_display_is_work_duration (endpoint m r : bool) :
  mmss (work_duration (fresh endpoint m r)) = "120:00"%string.
Proof. vm_compute. reflexivity. Qed.

(** C1.  At the end of [stop_in_break_after_nightfall] the session is
    idle, the thread has returned, the display is reset, the audio is
    unmuted and [blocking] is [False]; but the two listeners started by the
    night overlay's [block_input] were never stopped: the input is still
    intercepted. *)
Theorem stop_leaves_first_listeners_running :
  let s := run stop_in_break_after_nightfall (fresh true false false) in
  is_running s = false /\
  timers s = [PDone] /\
  time_var s = "120:00"%string /\
  muted s = false /\
  blocking s = false /\
  listeners s = [started Mouse; started Keyboard; stopped Mouse; stopped Keyboard] /\
  block_calls (history s) = 2%nat /\
  inputBlocked (enforcement s) = true.
Proof. vm_compute. repeat split. Qed.

(** C4.  After the second [start_timer] the first thread is still in its
    countdown: two sessions are active, in the 120-minute configuration as
    in a two-second one.  In the latter both threads soon reach the end of
    their countdowns and each toggles [is_work_session], so that both enter
    the work phase a second time. *)
Theorem second_start_keeps_first_thread :
  let s := run start_twice (fresh true false false) in
  let q := run (start_twice ++ [EvTimer 0; EvTimer 0; EvTimer 0; EvTimer 1; EvTimer 1;
                                 EvTimer 1; EvTimer 1; EvTimer 1; EvTimer 0; EvTimer 1])
               quick in
  timers s = [PSleep 7199; PSleep 7200] /\
  active_sessions s = 2%nat /\
  is_running s = true /\
  status_var s = "Work Session"%string /\
  time_var s = "120:00"%string /\
  active_sessions q = 2%nat /\
  entered (history q) = [Work; Work; Work; Work].
Proof. vm_compute. repeat split. Qed.

(** The same outcome without the night monitor: both threads enter the
    break phase, each calls [block_input], and [stop_timer] stops only the
    second pair of listeners (and closes only the second overlay). *)
Example stop_after_double_start_leaves_first_listeners :
  let s := run stop_after_double_start (fresh true false false) in
  is_running s = false /\
  timers s = [PDone; PDone] /\
  blocking s = false /\
  listeners s = [started Mouse; started Keyboard; stopped Mouse; stopped Keyboard] /\
  windows s = [true; false] /\
  inputBlocked (enforcement s) = true.
Proof. vm_compute. repeat split. Qed.

(** * Further properties *)

(** ** The break overlay reads the countdown back *)

Lemma split_on_lacks (sep : ascii) (s : string) :
  lacks sep s = true -> split_on sep s = [s].
Proof.
  induction s as [|c rest IH]; [reflexivity|].
  cbn. destruct (Ascii.eqb c sep); [discriminate|]. cbn.
  intros H. rewrite (IH H). reflexivity.
Qed.

Lemma split_on_append (sep : ascii) (a b : string) :
  lacks sep a = true ->
  split_on sep (String.append a (String sep b)) = a :: split_on sep b.
Proof.
  induction a as [|c rest IH]; cbn.
  - intros _. rewrite Ascii.eqb_refl. reflexivity.
  - destruct (Ascii.eqb c sep); [discriminate|]. cbn.
    intros H. rewrite (IH H). reflexivity.
Qed.

Lemma lacks_colon_uint (u : Decimal.uint) :
  lacks ":"%char (NilEmpty.string_of_uint u) = true.
Proof. induction u as [|u IH|u IH|u IH|u IH|u IH|u IH|u IH|u IH|u IH|u IH]; cbn; auto. Qed.

Lemma lacks_colon_int (d : Decimal.signed_int) :
  lacks ":"%char (NilZero.string_of_int d) = true.
Proof.
  assert (forall u, lacks ":"%char (NilZero.string_of_uint u) = true) as H.
  { intros u. destruct u; try apply (lacks_colon_uint (_ u)); reflexivity. }
  destruct d as [u|u]; cbn; apply H.
Qed.

Lemma lacks_colon_pad2 (n : Z) : lacks ":"%char (pad2 n) = true.
Proof.
  unfold pad2. destruct (_ <? _)%nat; cbn; apply lacks_colon_int.
Qed.

Lemma py_int_string_of_int (d : Decimal.signed_int) :
  py_int (NilZero.string_of_int d) = Some (Z.of_int d).
Proof.
  unfold py_int.
  destruct d as [u|u]; destruct u; try reflexivity;
    rewrite NilZero.isi by discriminate; reflexivity.
Qed.

Lemma py_int_zero_prefixed (u : Decimal.uint) :
  py_int (String "0" (NilZero.string_of_uint u)) = Some (Z.of_uint u).
Proof.
  unfold py_int. cbn [NilZero.int_of_string Ascii.eqb Bool.eqb].
  cbn [NilZero.uint_of_string NilEmpty.uint_of_string].
  destruct (NilZero.usu_gen u) as [H|H].
  - destruct u; try reflexivity;
      cbn [NilZero.string_of_uint NilZero.uint_of_string] in H |- *;
      rewrite NilEmpty.usu; reflexivity.
  - destruct u; try reflexivity;
      cbn [NilZero.string_of_uint] in H |- *; rewrite NilEmpty.usu; reflexivity.
Qed.

Lemma py_int_pad2 (n : Z) : 0 <= n -> py_int (pad2 n) = Some n.
Proof.
  intros Hn. unfold pad2.
  destruct (_ <? _)%nat.
  - destruct n as [|p|p]; [reflexivity| |lia].
    cbn [Z.to_int NilZero.string_of_int String.append].
    rewrite py_int_zero_prefixed.
    f_equal. exact (DecimalZ.of_to (Z.pos p)).
  - rewrite py_int_string_of_int. f_equal. apply DecimalZ.of_to.
Qed.

Lemma remaining_shown_mmss (d : Z) : 0 <= d -> remaining_shown (mmss d) = Some d.
Proof.
  intros Hd. unfold remaining_shown, mmss. cbn [String.append].
  rewrite split_on_append by apply lacks_colon_pad2.
  rewrite split_on_lacks by apply lacks_colon_pad2.
  cbn [nth].
  rewrite !py_int_pad2; [|apply Z.mod_pos_bound; lia|apply Z.div_pos; lia].
  f_equal. pose proof (Z.div_mod d 60). lia.
Qed.

(** X1.  While a break overlay exists and the display variable holds the
    text [countdown] wrote for [d >= 0] remaining seconds, a run of
    [update_display] reads exactly [d] back out of that text: the label
    shows "Break time remaining: " followed by the same minutes and
    seconds, and the break message is re-rolled exactly when [d] is a
    multiple of 5. *)
Theorem update_display_shows_countdown (s : App) (w : nat) (d : Z) :
  0 <= d ->
  overlay s = Some w ->
  time_var s = mmss d ->
  remaining_shown (time_var s) = Some d /\
  update_display s
  = Shown (String.append "Break time remaining: " (mmss d)) (d mod 5 =? 0).
Proof.
  intros Hd Ho Ht. unfold update_display.
  rewrite Ho, Ht, (remaining_shown_mmss d Hd). split; reflexivity.
Qed.

Lemma update_display_shows_countdown_witness :
  0 <= 415 /\
  update_display (run (EvStart :: repeat (EvTimer 0) (Z.to_nat 14415))
                      (fresh true false false))
  = Shown "Break time remaining: 06:55" true.
Proof.
  split; [lia|].
  exact (proj2 (update_display_shows_countdown
                  (run (EvStart :: repeat (EvTimer 0) (Z.to_nat 14415))
                       (fresh true false false))
                  0%nat 415 ltac:(lia) eq_refl eq_refl)).
Defined.

(** ** Blocking and unblocking compose *)

Lemma stop_ref_lookup_eq (r : option nat) (ls : list listener) (i : nat) :
  stop_ref r ls !! i
  = if decide (r = Some i) then set_running false <$> ls !! i else ls !! i.
Proof.
  destruct r as [j|]; cbn [stop_ref].
  - rewrite list_lookup_alter.
    destruct (decide (j = i)) as [->|Hne].
    + destruct (decide (Some i = Some i)); [reflexivity|contradiction].
    + destruct (decide (Some j = Some i)) as [[= E]|_]; [contradiction|reflexivity].
  - destruct (decide (None = Some i)); [discriminate|reflexivity].
Qed.

Lemma set_running_false_twice (o : option listener) :
  set_running false <$> (set_running false <$> o) = set_running false <$> o.
Proof. destruct o as [[d b]|]; reflexivity. Qed.

Lemma stop_refs_idempotent (m k : option nat) (ls : list listener) :
  stop_ref k (stop_ref m (stop_ref k (stop_ref m ls))) = stop_ref k (stop_ref m ls).
Proof.
  apply list_eq. intros i. rewrite !stop_ref_lookup_eq.
  destruct (decide (k = Some i)), (decide (m = Some i));
    rewrite ?set_running_false_twice; reflexivity.
Qed.

(** X2.  One [block_input] followed by [unblock_input] leaves no listener
    started that was not started before: the two new listeners are stopped
    again, the older ones are untouched, and the input is intercepted
    afterwards exactly when it was before.  (With
    two [block_input] calls this fails, see C10.) *)
Theorem unblock_after_block_restores (s : App) :
  let s' := unblock_input (block_input s) in
  listeners s' = listeners s ++ [stopped Mouse; stopped Keyboard] /\
  input_intercepted s' = input_intercepted s /\
  blocking s' = false /\
  muted s' = muted s.
Proof.
  intros s'. subst s'.
  assert (listeners (unblock_input (block_input s))
          = listeners s ++ [stopped Mouse; stopped Keyboard]) as Hl.
  { rewrite unblock_input_listeners.
    destruct (block_input_refs s) as [-> ->].
    rewrite block_input_listeners. cbn [stop_ref].
    rewrite (alter_app_r_alt _ (listeners s) _ (length (listeners s))) by lia.
    rewrite Nat.sub_diag. cbn [alter list_alter].
    rewrite alter_app_r_alt by lia.
    replace (S (length (listeners s)) - length (listeners s))%nat with 1%nat by lia.
    reflexivity. }
  split; [exact Hl|]. split.
  - unfold input_intercepted. rewrite Hl, existsb_running_app. cbn.
    rewrite orb_false_r. reflexivity.
  - split; [apply unblock_input_blocking|].
    destruct s as [? ? ? ? ? ? ? ? ? ? ? ? ? ? ? ? ? ? ? ? ? ?]; reflexivity.
Qed.

(** X3.  [unblock_input] is idempotent on everything but the history: a
    second call in a row changes neither the listeners, nor the attributes
    that refer to them, nor the flag. *)
Theorem unblock_input_twice (s : App) :
  let s1 := unblock_input s in
  let s2 := unblock_input s1 in
  listeners s2 = listeners s1 /\
  mouse_listener s2 = mouse_listener s1 /\
  keyboard_listener s2 = keyboard_listener s1 /\
  blocking s2 = blocking s1 /\
  enforcement s2 = enforcement s1.
Proof.
  intros s1 s2. subst s1 s2.
  assert (listeners (unblock_input (unblock_input s)) = listeners (unblock_input s)) as Hl.
  { rewrite (unblock_input_listeners (unblock_input s)).
    destruct (unblock_input_refs s) as [-> ->].
    rewrite unblock_input_listeners. apply stop_refs_idempotent. }
  destruct (unblock_input_refs (unblock_input s)) as [Hm Hk].
  repeat split; auto.
  - rewrite !unblock_input_blocking. reflexivity.
  - unfold enforcement, input_intercepted. rewrite Hl. f_equal.
    destruct s as [? ? ? ? ? ? ? ? ? [m|] [k|] ? ? ? ? ? ? ? ? ? ? ?]; reflexivity.
Qed.

(** ** The night overlay *)

Lemma create_night_overlay_sets (s : App) :
  night_overlay s = None ->
  let s' := create_night_overlay s in
  night_overlay s' = Some (length (windows s)) /\
  windows s' = windows s ++ [true] /\
  listeners s' = listeners s ++ [started Mouse; started Keyboard] /\
  mouse_listener s' = Some (length (listeners s)) /\
  keyboard_listener s' = Some (S (length (listeners s))) /\
  blocking s' = true.
Proof.
  intros Hn. destruct_app s. cbn in Hn. subst nov. cbn.
  rewrite alter_fresh_pair, length_app. cbn.
  repeat split. f_equal. lia.
Qed.

(** X4.  [create_night_overlay] is idempotent: called on the state it
    produced, it returns that state unchanged (its guard on
    [self.night_overlay] keeps it from blocking twice). *)
Theorem create_night_overlay_twice (s : App) :
  create_night_overlay (create_night_overlay s) = create_night_overlay s.
Proof.
  destruct (create_night_overlay_fields s) as (_ & _ & Hn & _).
  unfold create_night_overlay at 1.
  destruct (night_overlay (create_night_overlay s)); [reflexivity|contradiction].
Qed.

(** X5.  From a state without night overlay, [create_night_overlay]
    followed by [remove_night_overlay] closes the window it opened, leaves
    the attribute at [None] again, stops the two listeners it started, and
    the input is intercepted afterwards exactly when it was before. *)
Theorem remove_after_create_night_overlay (s : App) :
  night_overlay s = None ->
  let s' := remove_night_overlay (create_night_overlay s) in
  night_overlay s' = None /\
  windows s' = windows s ++ [false] /\
  listeners s' = listeners s ++ [stopped Mouse; stopped Keyboard] /\
  input_intercepted s' = input_intercepted s /\
  blocking s' = false.
Proof.
  intros Hn. destruct_app s. cbn in Hn. subst nov. cbn.
  rewrite alter_fresh_pair, length_app. cbn.
  rewrite (alter_app_r_alt _ wins _ (length wins)) by lia.
  rewrite Nat.sub_diag. cbn [alter list_alter].
  rewrite (alter_app_r_alt _ ls _ (length ls)) by lia.
  rewrite Nat.sub_diag. cbn [alter list_alter].
  rewrite alter_app_r_alt by lia.
  replace (length ls + 1 - length ls)%nat with 1%nat by lia. cbn.
  repeat split.
  unfold input_intercepted. cbn. rewrite existsb_running_app. cbn.
  rewrite orb_false_r. reflexivity.
Qed.

Lemma remove_after_create_night_overlay_witness :
  night_overlay (fresh true false false) = None /\
  listeners (remove_night_overlay (create_night_overlay (fresh true false false)))
  = [stopped Mouse; stopped Keyboard].
Proof.
  split; [reflexivity|].
  exact (proj1 (proj2 (proj2
           (remove_after_create_night_overlay (fresh true false false) eq_refl)))).
Defined.

(** ** Time source *)

(** X6.  The corrected time is the local clock reading plus the stored
    offset, whether the offset is zero (first branch of
    [get_accurate_time]) or not (second branch). *)
Theorem get_accurate_time_adds_offset (c : clock) (s : App) :
  (get_accurate_time c s == datetime_now c + time_offset s)%Q.
Proof.
  unfold get_accurate_time, truthy, fromtimestamp, datetime_now.
  destruct (Qeq_bool (time_offset s) 0) eqn:E; cbn [negb].
  - apply Qeq_bool_eq in E. rewrite E. ring.
  - ring.
Qed.

(** X7.  [sync_time] takes the offset of the first server that answers:
    the servers listed before it have each failed with a caught exception,
    the servers listed after it are not asked (their behaviour does not
    matter), the offset is stored and one line is printed. *)
Theorem sync_time_uses_first_answer (net : string -> ntp_outcome) (s : App)
    (failed : list string) (server : string) (rest : list string) (off : Q) :
  ntp_servers s = failed ++ server :: rest ->
  Forall (fun x => caught (net x) = true) failed ->
  net server = NtpResponse off ->
  snd (sync_time net s) = Returned /\
  time_offset (fst (sync_time net s)) = off /\
  stdout (fst (sync_time net s)) = stdout s ++ [Synced server off].
Proof.
  intros Hs Hf Ha. unfold sync_time.
  rewrite Hs, (sync_loop_first_answer net failed server rest off s Hf Ha).
  destruct s; cbn. auto.
Qed.

Lemma sync_time_uses_first_answer_witness :
  time_offset (fst (sync_time net_second_answers (fresh true false false))) = (3 # 4)%Q.
Proof.
  refine (proj1 (proj2 (sync_time_uses_first_answer net_second_answers
            (fresh true false false) ["pool.ntp.org"%string] "time.google.com"%string
            ["time.windows.com"%string; "time.apple.com"%string] (3 # 4) eq_refl _ eq_refl))).
  repeat constructor.
Defined.

(** X8.  An exception other than the three caught ones leaves
    [sync_time] at the first server that raises it: nothing is stored,
    nothing is printed, no later server is asked, and the exception reaches
    the caller. *)
Theorem sync_time_propagates_other_exceptions (net : string -> ntp_outcome) (s : App)
    (failed : list string) (server : string) (rest : list string) :
  ntp_servers s = failed ++ server :: rest ->
  Forall (fun x => caught (net x) = true) failed ->
  net server = OtherException ->
  sync_time net s = (s, Raised).
Proof.
  intros Hs Hf Ha. unfold sync_time. rewrite Hs. clear Hs.
  induction Hf as [|x l Hc _ IH]; cbn.
  - rewrite Ha. reflexivity.
  - destruct (net x); try discriminate Hc; exact IH.
Qed.

Lemma sync_time_propagates_other_exceptions_witness :
  PomodoroBlocker true false false net_broken = (fresh true false false, Raised).
Proof.
  refine (sync_time_propagates_other_exceptions net_broken (fresh true false false)
            ["pool.ntp.org"%string] "time.google.com"%string
            ["time.windows.com"%string; "time.apple.com"%string] eq_refl _ eq_refl).
  repeat constructor.
Defined.

(** ** Start-up check and the monitor *)

(** X9.  When the application is started inside the night window, [run]
    creates the night overlay and blocks the input before the main loop
    starts, and the polls of the monitor that follow inside the night
    window change nothing; started outside the night window, [run] changes
    nothing. *)
Theorem run_app_checks_night_once (c : clock) (s : App) :
  night_overlay s = None ->
  (is_night_time c s = false -> run_app c s = s) /\
  (is_night_time c s = true ->
   night_overlay (run_app c s) = Some (length (windows s)) /\
   input_intercepted (run_app c s) = true /\
   block_calls (history (run_app c s)) = S (block_calls (history s)) /\
   forall c', is_night_time c' s = true -> monitor_poll c' (run_app c s) = run_app c s).
Proof.
  intros Hn. unfold run_app. split; intros Hc; rewrite Hc; [reflexivity|].
  destruct (create_night_overlay_sets s Hn) as (H1 & _ & H3 & _).
  destruct (create_night_overlay_fields s) as (Hoff & _ & _ & Hb).
  rewrite Hn in Hb.
  repeat split; auto.
  - unfold input_intercepted. rewrite H3, existsb_running_app. cbn. apply orb_true_r.
  - intros c' Hc'. unfold monitor_poll.
    rewrite (is_night_time_offset c' s _ Hoff), Hc', H1. reflexivity.
Qed.

Lemma run_app_checks_night_once_witness :
  night_overlay (fresh true false false) = None /\
  input_intercepted (run_app (clock_at 3600 2 30 0) (fresh true false false)) = true.
Proof.
  split; [reflexivity|].
  exact (proj1 (proj2 (proj2 (run_app_checks_night_once (clock_at 3600 2 30 0)
                                (fresh true false false) eq_refl) eq_refl))).
Defined.

(** ** The end of the night *)

Lemma unblock_calls_app (a b : list obs) :
  unblock_calls (a ++ b) = (unblock_calls a + unblock_calls b)%nat.
Proof.
  induction a as [|o a IH]; [reflexivity|].
  destruct o; cbn; rewrite IH; reflexivity.
Qed.

Lemma remove_night_overlay_fields (s : App) :
  let s' := remove_night_overlay s in
  time_offset s' = time_offset s /\
  after_queue s' = after_queue s /\
  night_overlay s' = None /\
  unblock_calls (history s')
  = match night_overlay s with
    | Some _ => S (unblock_calls (history s))
    | None => unblock_calls (history s)
    end /\
  blocking s' = match night_overlay s with Some _ => false | None => blocking s end.
Proof.
  destruct_app s. destruct nov, ml, kl; cbn; rewrite ?unblock_calls_app; cbn;
    repeat split; lia.
Qed.

Lemma set_after_queue_blocking (v : list callback) (s : App) :
  blocking (set_after_queue v s) = blocking s.
Proof. destruct s; reflexivity. Qed.

Section MorningPolls.

Variable off0 : Q.
Variable u0 : nat.

Lemma day_inv_dispatch (polled : bool) (s : App) :
  day_inv off0 u0 polled s ->
  day_inv off0 u0 polled (dispatch s) /\
  after_queue (dispatch s) = tail (after_queue s).
Proof.
  intros (Hoff & Hq & Hb & Hp). unfold dispatch.
  destruct (after_queue s) as [|cb rest] eqn:Eq.
  - split; [|exact Eq]. unfold day_inv. rewrite Eq. auto.
  - apply Forall_cons in Hq as [-> Hrest]. cbn [run_callback tail].
    destruct (set_after_queue_fields rest s) as (F1 & F2 & F3 & F4).
    destruct (remove_night_overlay_fields (set_after_queue rest s))
      as (G1 & G2 & G3 & G4 & G5).
    rewrite F3, F4 in G4. rewrite F3, set_after_queue_blocking in G5.
    split; [|congruence].
    unfold day_inv. rewrite G1, G2, G3, F1, F2, G4, G5.
    repeat split; auto.
    destruct Hb as [[Hn Hc]|(Hn & Hc & Hbl)].
    + right. destruct (night_overlay s); [auto|contradiction].
    + right. rewrite Hn. auto.
Qed.

Lemma day_inv_poll (polled : bool) (c : clock) (s : App) :
  is_night_time c s = false ->
  day_inv off0 u0 polled s -> day_inv off0 u0 true (monitor_poll c s).
Proof.
  intros Hn (Hoff & Hq & Hb & Hp). unfold monitor_poll, root_after. rewrite Hn.
  destruct (night_overlay s) as [w|] eqn:Eo.
  - destruct (set_after_queue_fields (after_queue s ++ [CbRemoveNightOverlay]) s)
      as (F1 & F2 & F3 & F4).
    assert (blocking (set_after_queue (after_queue s ++ [CbRemoveNightOverlay]) s)
            = blocking s) as F5 by apply set_after_queue_blocking.
    unfold day_inv. rewrite F1, F2, F3, F4, F5, Eo. repeat split; auto.
    + apply Forall_app. split; [exact Hq|]. repeat constructor.
    + intros _. right. intros E. apply app_eq_nil in E as [_ E]. discriminate E.
  - unfold day_inv. rewrite Eo. repeat split; auto.
Qed.

Lemma day_inv_run (s0 : App) (es : list event) :
  time_offset s0 = off0 ->
  forallb (day_poll_or_dispatch s0) es = true ->
  forall (polled : bool) (s : App),
    day_inv off0 u0 polled s ->
    day_inv off0 u0 (polled || existsb is_poll es) (run es s).
Proof.
  intros H0. induction es as [|e es IH]; intros Hes polled s Hinv.
  - cbn. rewrite orb_false_r. exact Hinv.
  - cbn in Hes. apply andb_true_iff in Hes as [He Hes].
    cbn [run fold_left existsb].
    fold (run es (step e s)).
    destruct e as [| |i|c| |net]; try discriminate He; cbn [step is_poll].
    + rewrite orb_true_l, orb_true_r.
      replace true with (true || existsb is_poll es) by reflexivity.
      apply IH; [exact Hes|].
      apply (day_inv_poll polled); [|exact Hinv].
      cbn in He. apply negb_true_iff in He. rewrite <- He.
      apply is_night_time_offset. destruct Hinv as [-> _]. auto.
    + rewrite orb_false_l. apply IH; [exact Hes|].
      apply day_inv_dispatch. exact Hinv.
Qed.

Lemma day_inv_drain (polled : bool) (n : nat) :
  forall s : App,
    day_inv off0 u0 polled s ->
    length (after_queue s) = n ->
    day_inv off0 u0 polled (run (repeat EvDispatch n) s) /\
    after_queue (run (repeat EvDispatch n) s) = [].
Proof.
  induction n as [|n IH]; intros s Hinv Hlen.
  - cbn. split; [exact Hinv|]. destruct (after_queue s); [reflexivity|discriminate].
  - cbn [repeat run fold_left step].
    destruct (day_inv_dispatch polled s Hinv) as [Hinv' Hq].
    apply IH; [exact Hinv'|].
    rewrite Hq. destruct (after_queue s); [discriminate|]. cbn in *. lia.
Qed.

End MorningPolls.

(** X10.  The end of the night is edge-triggered as its beginning is:
    from a state with the night overlay up and no pending callback, any run
    of polls whose clock readings all lie outside the night window and of
    main-loop turns, with at least one poll, ends (once the pending
    callbacks have run) with the overlay attribute at [None] and with
    exactly one more call of [unblock_input], whatever the number of
    polls. *)
Theorem morning_polls_unblock_once (s : App) (w : nat) (es : list event) :
  night_overlay s = Some w ->
  after_queue s = [] ->
  forallb (day_poll_or_dispatch s) es = true ->
  existsb is_poll es = true ->
  unblock_calls (history (drain (run es s))) = S (unblock_calls (history s)) /\
  night_overlay (drain (run es s)) = None /\
  blocking (drain (run es s)) = false.
Proof.
  intros Hov Hq Hes Hpoll.
  assert (day_inv (time_offset s) (unblock_calls (history s)) false s) as H0.
  { unfold day_inv. rewrite Hq, Hov. repeat split; auto. all: discriminate. }
  pose proof (day_inv_run _ _ s es eq_refl Hes false s H0) as H1.
  rewrite Hpoll in H1. cbn [orb] in H1.
  destruct (day_inv_drain _ _ true _ (run es s) H1 eq_refl) as [(_ & _ & Hb & Hp) Hempty].
  fold (drain (run es s)) in *.
  destruct (Hp eq_refl) as [Hn|Hn]; [|contradiction].
  destruct Hb as [[Hb _]|(_ & Hb & Hbl)]; [contradiction|]. auto.
Qed.

Lemma morning_polls_unblock_once_witness :
  night_overlay (run_app (clock_at 0 5 59 50) (fresh true false false)) = Some 0%nat /\
  unblock_calls (history (drain (run three_morning_polls
                   (run_app (clock_at 0 5 59 50) (fresh true false false))))) = 1%nat /\
  input_intercepted (drain (run three_morning_polls
                   (run_app (clock_at 0 5 59 50) (fresh true false false)))) = false.
Proof.
  split; [reflexivity|]. split; [|reflexivity].
  exact (proj1 (morning_polls_unblock_once
                  (run_app (clock_at 0 5 59 50) (fresh true false false)) 0
                  three_morning_polls eq_refl eq_refl eq_refl eq_refl)).
Defined.

(** ** A thread after the stop *)






(** ** Enforcement follows the phase *)

Lemma not_intercepted_none_running (s : App) (i : nat) (l : listener) :
  input_intercepted s = false -> listeners s !! i = Some l -> l_running l = true -> False.
Proof.
  intros H Hi Hl.
  assert (existsb l_running (listeners s) = true) as E.
  { apply existsb_exists. exists l. split; [|exact Hl].
    apply list_elem_of_In, list_elem_of_lookup. eauto. }
  unfold input_intercepted in H. congruence.
Qed.

Lemma not_intercepted_only_tracked (s : App) :
  input_intercepted s = false -> only_tracked_running s.
Proof.
  intros H i l Hi Hl. exfalso. exact (not_intercepted_none_running s i l H Hi Hl).
Qed.

Lemma block_input_only_tracked (s : App) :
  input_intercepted s = false -> only_tracked_running (block_input s).
Proof.
  intros H i l Hi Hl.
  destruct (block_input_refs s) as [-> ->].
  rewrite block_input_listeners in Hi.
  destruct (decide (i < length (listeners s))%nat) as [Hlt|Hge].
  - rewrite lookup_app_l in Hi by lia.
    exfalso. exact (not_intercepted_none_running s i l H Hi Hl).
  - rewrite lookup_app_r in Hi by lia.
    destruct (i - length (listeners s))%nat as [|[|j]] eqn:E; cbn in Hi.
    + left. f_equal. lia.
    + right. f_equal. lia.
    + discriminate Hi.
Qed.

Lemma work_entry_state (s : App) :
  is_running s = true -> is_work_session s = true ->
  let r := timer_step PLoop s in
  fst r = PCount (work_duration s) /\
  listeners (snd r) = listeners (unblock_input s) /\
  mouse_listener (snd r) = mouse_listener s /\
  keyboard_listener (snd r) = keyboard_listener s /\
  blocking (snd r) = false /\
  is_running (snd r) = true /\
  is_work_session (snd r) = true /\
  audio (snd r) = audio s /\
  setmute_raises (snd r) = setmute_raises s /\
  status_var (snd r) = "Work Session"%string /\
  (audio s = true -> setmute_raises s = false -> muted (snd r) = false) /\
  overlay (snd r) = overlay s /\
  windows (snd r)
  = match overlay s with
    | Some w => alter (fun _ => false) w (windows s)
    | None => windows s
    end.
Proof.
  intros Hr Hw. destruct_app s. cbn in Hr, Hw. subst rn ws.
  destruct ov, ml, kl, au, smr; cbn; repeat split; auto; discriminate.
Qed.

Lemma break_entry_state (s : App) :
  is_running s = true -> is_work_session s = false ->
  let r := timer_step PLoop s in
  fst r = PCount (rest_duration s) /\
  listeners (snd r) = listeners (block_input s) /\
  mouse_listener (snd r) = mouse_listener (block_input s) /\
  keyboard_listener (snd r) = keyboard_listener (block_input s) /\
  blocking (snd r) = true /\
  is_running (snd r) = true /\
  is_work_session (snd r) = false /\
  audio (snd r) = audio s /\
  setmute_raises (snd r) = setmute_raises s /\
  status_var (snd r) = "Break Time"%string /\
  (audio s = true -> setmute_raises s = false -> muted (snd r) = true) /\
  overlay (snd r) = Some (length (windows s)) /\
  windows (snd r) = windows s ++ [true].
Proof.
  intros Hr Hw. destruct_app s. cbn in Hr, Hw. subst rn ws.
  destruct au, smr; cbn; repeat split; auto; discriminate.
Qed.

Lemma only_tracked_ext (s s' : App) :
  listeners s' = listeners s ->
  mouse_listener s' = mouse_listener s ->
  keyboard_listener s' = keyboard_listener s ->
  only_tracked_running s -> only_tracked_running s'.
Proof.
  unfold only_tracked_running. intros -> -> -> H. exact H.
Qed.

Lemma follows_step (au0 smr0 : bool) (p : pc) (s : App) :
  follows au0 smr0 p s ->
  follows au0 smr0 (fst (timer_step p s)) (snd (timer_step p s)).
Proof.
  intros (Hr & Ha & Hs & Hp). destruct p.
  - (* entering a phase *)
    destruct (is_work_session s) eqn:Hw.
    + destruct (work_entry_state s Hr Hw)
        as (E0 & E1 & E2 & E3 & E4 & E5 & E6 & E7 & E8 & E9 & E10 & E11 & E12).
      assert (input_intercepted (snd (timer_step PLoop s)) = false) as Hi.
      { unfold input_intercepted. rewrite E1, unblock_input_listeners.
        apply stop_refs_release. exact Hp. }
      rewrite E0. unfold follows. rewrite E5, E6, E7, E8.
      do 3 (split; [auto|]).
      unfold enforced. cbn [negb]. repeat split; auto.
      * apply not_intercepted_only_tracked. exact Hi.
      * subst au0 smr0. exact E10.
      * unfold overlay_shown. intros w Ho. rewrite E11 in Ho. rewrite E12, Ho, list_lookup_alter_eq.
        destruct (windows s !! w); cbn; congruence.
    + destruct (break_entry_state s Hr Hw)
        as (E0 & E1 & E2 & E3 & E4 & E5 & E6 & E7 & E8 & E9 & E10 & E11 & E12).
      rewrite E0. unfold follows. rewrite E5, E6, E7, E8.
      do 3 (split; [auto|]).
      unfold enforced. cbn [negb]. repeat split; auto.
      * unfold input_intercepted. rewrite E1. apply block_input_intercepts.
      * apply (only_tracked_ext (block_input s)); auto.
        apply block_input_only_tracked. exact Hp.
      * subst au0 smr0. exact E10.
      * unfold overlay_shown. exists (length (windows s)). split; [exact E11|].
        rewrite E12, lookup_app_r, Nat.sub_diag by lia. reflexivity.
  - (* the head of the countdown loop *)
    destruct_app s. cbn in Hr, Ha, Hs. subst rn. cbn [timer_step is_running].
    rewrite andb_true_r. destruct (0 <? d); cbn [fst snd]; unfold follows.
    + do 3 (split; [assumption || reflexivity|]). split; [exact Hp|reflexivity].
    + do 3 (split; [assumption || reflexivity|]). exact Hp.
  - destruct_app s. cbn in Hr, Ha, Hs. subst rn. destruct Hp as [Hp _].
    unfold follows. cbn [timer_step fst snd].
    do 3 (split; [assumption || reflexivity|]). exact Hp.
  - destruct_app s. cbn in Hr, Ha, Hs. subst rn. cbn [timer_step is_running fst snd].
    unfold follows.
    do 3 (split; [assumption || reflexivity|]).
    destruct Hp as (H1 & H2 & H3 & _). destruct ws; cbn in *; auto.
  - contradiction.
Qed.

Lemma follows_set_timers (au0 smr0 : bool) (p : pc) (v : list pc) (s : App) :
  follows au0 smr0 p s -> follows au0 smr0 p (set_timers v s).
Proof. destruct s. exact (fun H => H). Qed.

Lemma follows_run (au0 smr0 : bool) (thr : list pc) (n : nat) :
  forall (p : pc) (s : App),
    timers s = thr ++ [p] ->
    follows au0 smr0 p s ->
    exists p',
      timers (run (repeat (EvTimer (length thr)) n) s) = thr ++ [p'] /\
      follows au0 smr0 p' (run (repeat (EvTimer (length thr)) n) s).
Proof.
  induction n as [|n IH]; intros p s Ht Hf.
  - exists p. auto.
  - cbn [repeat]. rewrite (run_own_timer thr p _ s Ht).
    apply (IH (fst (timer_step p s))).
    + destruct (timer_step p s) as [p1 s1]. destruct s1. reflexivity.
    + apply follows_set_timers, follows_step. exact Hf.
Qed.

(** X12.  Enforcement follows the phase.  In a session that nothing
    interferes with (started from a state in which every started listener
    is one the attributes refer to, then only steps of its own thread, any
    number of them), whenever the thread sleeps in a countdown with [d]
    seconds left: the display shows [d], the label names the phase, and
    the input is intercepted, the flag set, the break overlay displayed
    and (with a working audio endpoint) the sound muted exactly in the
    break phase. *)
Theorem enforcement_follows_phase (s : App) (n : nat) (d : Z) :
  only_tracked_running s ->
  let k := length (timers s) in
  let s' := run (EvStart :: repeat (EvTimer k) n) s in
  timers s' !! k = Some (PSleep d) ->
  time_var s' = mmss d /\
  status_var s' = phase_label (is_work_session s') /\
  input_intercepted s' = negb (is_work_session s') /\
  blocking s' = negb (is_work_session s') /\
  overlay_shown (negb (is_work_session s')) s' /\
  (audio s = true -> setmute_raises s = false ->
   muted s' = negb (is_work_session s')).
Proof.
  intros Htr k s' Hk.
  assert (follows (audio s) (setmute_raises s) PLoop (start_timer s)) as H0.
  { destruct_app s. unfold follows. cbn. repeat split; auto. }
  destruct (follows_run (audio s) (setmute_raises s) (timers s) n PLoop (start_timer s))
    as (p' & Ht & Hf); [destruct s; reflexivity|exact H0|].
  change (run (repeat (EvTimer (length (timers s))) n) (start_timer s)) with s' in Ht, Hf.
  rewrite Ht, lookup_app_r, Nat.sub_diag in Hk by (unfold k; lia).
  cbn in Hk. injection Hk as ->.
  destruct Hf as (_ & _ & _ & (H1 & H2 & _ & H4 & H5 & H6) & H7).
  rewrite negb_involutive in H5.
  exact (conj H7 (conj H5 (conj H1 (conj H2 (conj H6 H4))))).
Qed.

Lemma enforcement_follows_phase_witness :
  only_tracked_running (fresh true false false) /\
  (let s' := run (EvStart :: repeat (EvTimer 0) (Z.to_nat 14407)) (fresh true false false) in
   timers s' !! 0%nat = Some (PSleep 419) /\
   is_work_session s' = false /\
   input_intercepted s' = true /\
   muted s' = true).
Proof.
  assert (only_tracked_running (fresh true false false)) as H.
  { intros i l Hi. destruct i; discriminate Hi. }
  split; [exact H|]. cbv zeta.
  pose proof (enforcement_follows_phase (fresh true false false)
                (Z.to_nat 14407) 419 H eq_refl) as (_ & _ & H3 & _ & _ & H6).
  split; [reflexivity|]. split; [reflexivity|].
  split; [exact H3|exact (H6 eq_refl eq_refl)].
Defined.

(** ** Listeners no attribute refers to *)

Lemma lview_sync_loop (net : string -> ntp_outcome) (servers : list string) (s : App) :
  lview (fst (sync_loop net servers s)) = lview s.
Proof.
  induction servers as [|server rest IH]; cbn.
  - destruct s; reflexivity.
  - destruct (net server); try exact IH; destruct s; reflexivity.
Qed.

(** Every event leaves the listeners and the flag alone, or acts on them
    as one [block_input] or one [unblock_input] does. *)
Lemma lview_step (e : event) (s : App) :
  lview (step e s) = lview s \/
  lview (step e s) = lview (block_input s) \/
  lview (step e s) = lview (unblock_input s).
Proof.
  destruct e as [| |i|c| |net]; cbn [step].
  - left. destruct s; reflexivity.
  - right. right. destruct_app s. destruct ov, ml, kl, au, smr; reflexivity.
  - destruct (timers s !! i) as [p|] eqn:E; [|auto].
    destruct_app s. cbn in E. clear E. destruct p; cbn.
    + destruct rn; [|auto]. destruct ws.
      * right. right. destruct ov, ml, kl, au, smr; reflexivity.
      * right. left. destruct au, smr; reflexivity.
    + destruct ((0 <? d) && rn); auto.
    + auto.
    + destruct rn; auto.
    + auto.
  - left. unfold monitor_poll. destruct (is_night_time c s), (night_overlay s);
      destruct s; reflexivity.
  - unfold dispatch. destruct (after_queue s) as [|cb rest] eqn:E; [auto|].
    destruct_app s. cbn in E. clear E. destruct cb; cbn.
    + destruct nov; [left|right; left]; reflexivity.
    + destruct nov; [right; right|left]; [destruct ml, kl|]; reflexivity.
  - left. apply lview_sync_loop.
Qed.

Lemma orphaned_ext (i : nat) (l : listener) (s s' : App) :
  lview s' = lview s -> orphaned i l s -> orphaned i l s'.
Proof.
  unfold lview, orphaned. intros [= _ -> -> ->] H. exact H.
Qed.

Lemma orphaned_block_input (i : nat) (l : listener) (s : App) :
  orphaned i l s -> orphaned i l (block_input s).
Proof.
  intros (Hi & _ & _). unfold orphaned.
  destruct (block_input_refs s) as [-> ->].
  rewrite block_input_listeners.
  pose proof (lookup_lt_Some _ _ _ Hi) as Hlt.
  rewrite lookup_app_l by lia.
  repeat split; [exact Hi| |]; intros [= E]; lia.
Qed.

Lemma orphaned_unblock_input (i : nat) (l : listener) (s : App) :
  orphaned i l s -> orphaned i l (unblock_input s).
Proof.
  intros (Hi & Hm & Hk). unfold orphaned.
  destruct (unblock_input_refs s) as [-> ->].
  rewrite unblock_input_listeners, !stop_ref_lookup_eq.
  destruct (decide (keyboard_listener s = Some i)); [contradiction|].
  destruct (decide (mouse_listener s = Some i)); [contradiction|].
  auto.
Qed.

Lemma orphaned_step (i : nat) (l : listener) (e : event) (s : App) :
  orphaned i l s -> orphaned i l (step e s).
Proof.
  intros H. destruct (lview_step e s) as [E|[E|E]].
  - exact (orphaned_ext i l _ _ E H).
  - exact (orphaned_ext i l _ _ E (orphaned_block_input i l s H)).
  - exact (orphaned_ext i l _ _ E (orphaned_unblock_input i l s H)).
Qed.

(** X14.  No operation of the program calls [stop()] on a listener that
    neither [mouse_listener] nor [keyboard_listener] refers to: whichever
    event comes next (stop button, start button, a step of a timer thread,
    a poll, a pending callback, a synchronisation), the listener is
    afterwards exactly as before and still unreferenced.  The methods
    reach listeners only through the two attributes, and [block_input]
    only ever assigns them new objects. *)
Theorem operations_leave_unreferenced_listener (e : event) (s : App)
    (i : nat) (l : listener) :
  listeners s !! i = Some l ->
  mouse_listener s <> Some i ->
  keyboard_listener s <> Some i ->
  listeners (step e s) !! i = Some l /\
  mouse_listener (step e s) <> Some i /\
  keyboard_listener (step e s) <> Some i.
Proof.
  intros Hi Hm Hk.
  exact (orphaned_step i l e s (conj Hi (conj Hm Hk))).
Qed.

Lemma operations_leave_unreferenced_listener_witness :
  let s := block_input (block_input (fresh true false false)) in
  listeners s !! 0%nat = Some (started Mouse) /\
  mouse_listener s <> Some 0%nat /\
  keyboard_listener s <> Some 0%nat /\
  listeners (step EvStop s) !! 0%nat = Some (started Mouse).
Proof.
  cbv zeta. split; [reflexivity|]. split; [discriminate|]. split; [discriminate|].
  refine (proj1 (operations_leave_unreferenced_listener EvStop
            (block_input (block_input (fresh true false false))) 0 (started Mouse)
            eq_refl _ _)); discriminate.
Defined.

(** ** The length of a cycle *)

Lemma after_sleeps_session (thr : list pc) (d : Z) (n : nat) (s : App) :
  let s2 := after_sleeps thr d n s in
  timers s2 = thr ++ [PCount (d - Z.of_nat n)] /\
  is_running s2 = is_running s /\
  is_work_session s2 = is_work_session s /\
  work_duration s2 = work_duration s /\
  rest_duration s2 = rest_duration s /\
  entered (history s2) = entered (history s) /\
  elapsed (history s2) = elapsed (history s) + Z.of_nat n.
Proof.
  destruct_app s. cbn.
  rewrite entered_app, elapsed_app, entered_repeat_sleep, elapsed_repeat_sleep, app_nil_r.
  repeat split; reflexivity.
Qed.

Lemma turn_of_phase (thr : list pc) (s : App) :
  timers s = thr ++ [PCount 0] ->
  is_running s = true ->
  let s3 := run (repeat (EvTimer (length thr)) 3) s in
  timers s3
  = thr ++ [PCount (if is_work_session s then rest_duration s else work_duration s)] /\
  is_running s3 = true /\
  is_work_session s3 = negb (is_work_session s) /\
  work_duration s3 = work_duration s /\
  rest_duration s3 = rest_duration s /\
  entered (history s3) = entered (history s) ++ [phase_of (negb (is_work_session s))] /\
  elapsed (history s3) = elapsed (history s).
Proof.
  intros Ht Hr.
  destruct_app s. cbn in Ht, Hr. subst ts rn.
  cbn [repeat].
  rewrite (run_own_timer thr (PCount 0)) by reflexivity.
  cbn [timer_step Z.ltb Z.compare andb fst snd].
  rewrite (run_own_timer thr PToggle) by reflexivity.
  cbn [timer_step record set_timers set_history history is_running fst snd
       is_work_session set_is_work_session].
  rewrite (run_own_timer thr PLoop) by reflexivity.
  cbn [timer_step is_running is_work_session].
  destruct ws; cbn [negb].
  - destruct au, smr; cbn; rewrite !entered_app, !elapsed_app; cbn;
      rewrite ?app_nil_r; repeat split; lia.
  - destruct ov, ml, kl, au, smr; cbn; rewrite !entered_app, !elapsed_app; cbn;
      rewrite ?app_nil_r; repeat split; lia.
Qed.

Lemma half_cycle (thr : list pc) (s : App) (d : Z) :
  timers s = thr ++ [PCount d] ->
  is_running s = true ->
  0 <= d ->
  let s' := run (repeat (EvTimer (length thr)) (2 * Z.to_nat d + 3)) s in
  timers s'
  = thr ++ [PCount (if is_work_session s then rest_duration s else work_duration s)] /\
  is_running s' = true /\
  is_work_session s' = negb (is_work_session s) /\
  work_duration s' = work_duration s /\
  rest_duration s' = rest_duration s /\
  entered (history s') = entered (history s) ++ [phase_of (negb (is_work_session s))] /\
  elapsed (history s') = elapsed (history s) + d.
Proof.
  intros Ht Hr Hd s'. subst s'.
  rewrite repeat_app, run_concat.
  rewrite (countdown_run thr (Z.to_nat d) d s Ht Hr) by lia.
  destruct (after_sleeps_session thr d (Z.to_nat d) s) as (T & R & W & WD & RD & En & El).
  set (s2 := after_sleeps thr d (Z.to_nat d) s) in *.
  replace (d - Z.of_nat (Z.to_nat d)) with 0 in T by lia.
  destruct (turn_of_phase thr s2 T) as (T3 & R3 & W3 & WD3 & RD3 & En3 & El3);
    [congruence|].
  rewrite T3, R3, W3, WD3, RD3, En3, El3, W, WD, RD, En, El.
  repeat split. lia.
Qed.

Lemma cycles (thr : list pc) (w r : Z) (k : nat) :
  0 <= w -> 0 <= r ->
  forall s : App,
    timers s = thr ++ [PCount w] ->
    is_running s = true ->
    is_work_session s = true ->
    work_duration s = w ->
    rest_duration s = r ->
    let s' := run (repeat (EvTimer (length thr))
                     (k * (2 * Z.to_nat w + 2 * Z.to_nat r + 6))) s in
    timers s' = thr ++ [PCount w] /\
    is_work_session s' = true /\
    elapsed (history s') = elapsed (history s) + Z.of_nat k * (w + r) /\
    entered (history s') = entered (history s) ++ concat (repeat [Break; Work] k).
Proof.
  intros Hw Hr. induction k as [|k IH]; intros s Ht Hrun Hws Hwd Hrd.
  - cbn. rewrite app_nil_r. repeat split; auto. lia.
  - cbv zeta.
    replace (S k * (2 * Z.to_nat w + 2 * Z.to_nat r + 6))%nat
      with ((2 * Z.to_nat w + 3) + ((2 * Z.to_nat r + 3)
            + k * (2 * Z.to_nat w + 2 * Z.to_nat r + 6)))%nat by lia.
    rewrite repeat_app, run_concat, repeat_app, run_concat.
    destruct (half_cycle thr s w Ht Hrun Hw) as (T1 & R1 & W1 & WD1 & RD1 & En1 & El1).
    set (s1 := run (repeat (EvTimer (length thr)) (2 * Z.to_nat w + 3)) s) in *.
    rewrite Hws, Hrd in T1. rewrite Hws in W1, En1. cbn [negb phase_of] in W1, En1.
    destruct (half_cycle thr s1 r T1 R1 Hr) as (T2 & R2 & W2 & WD2 & RD2 & En2 & El2).
    set (s2 := run (repeat (EvTimer (length thr)) (2 * Z.to_nat r + 3)) s1) in *.
    rewrite W1, WD1, Hwd in T2. rewrite W1 in W2, En2. cbn [negb phase_of] in W2, En2.
    destruct (IH s2 T2 R2 W2) as (T3 & W3 & El3 & En3); [congruence|congruence|].
    rewrite T3, W3, El3, En3, El2, El1, En2, En1.
    repeat split.
    + lia.
    + rewrite <- !app_assoc. reflexivity.
Qed.

(** X15.  The schedule of a session that nothing interferes with, for
    non-negative durations [w] and [r]: [k] full cycles after the first
    entry into the work phase, the thread is entering a work countdown
    again, it has slept exactly [k * (w + r)] seconds, and the phases it
    has entered are Work followed by [k] times Break, Work. *)
Theorem cycles_take_work_plus_rest (s : App) (k : nat) :
  0 <= work_duration s ->
  0 <= rest_duration s ->
  let w := work_duration s in
  let r := rest_duration s in
  let cycle := (2 * Z.to_nat w + 2 * Z.to_nat r + 6)%nat in
  let s' := run (EvStart :: repeat (EvTimer (length (timers s))) (1 + k * cycle)) s in
  timers s' !! length (timers s) = Some (PCount w) /\
  is_work_session s' = true /\
  elapsed (history s') = elapsed (history s) + Z.of_nat k * (w + r) /\
  entered (history s') = entered (history s) ++ Work :: concat (repeat [Break; Work] k).
Proof.
  intros Hw Hr w r cycle s'.
  pose proof (start_then_enter_work s) as H1. cbv zeta in H1.
  destruct H1 as (T1 & R1 & W1 & WD1 & RD1 & _ & H1).
  set (s1 := run [EvStart; EvTimer (length (timers s))] s) in *.
  assert (s' = run (repeat (EvTimer (length (timers s))) (k * cycle)) s1) as ->
    by reflexivity.
  destruct (cycles (timers s) w r k Hw Hr s1 T1 R1 W1 WD1 RD1) as (T & W & El & En).
  fold cycle in T, W, El, En.
  rewrite T, W, El, En, H1, entered_app, elapsed_app. cbn [entered elapsed].
  rewrite lookup_app_r, Nat.sub_diag by lia.
  repeat split.
  - lia.
  - rewrite <- app_assoc. reflexivity.
Qed.

Lemma cycles_take_work_plus_rest_witness :
  0 <= work_duration quick /\
  0 <= rest_duration quick /\
  (let s' := run (EvStart :: repeat (EvTimer 0) 37) quick in
   elapsed (history s') = 9 /\
   entered (history s') = [Work; Break; Work; Break; Work; Break; Work]).
Proof.
  split; [discriminate|]. split; [discriminate|]. cbv zeta.
  destruct (cycles_take_work_plus_rest quick 3 ltac:(discriminate) ltac:(discriminate))
    as (_ & _ & H3 & H4).
  split; [exact H3|exact H4].
Defined.

(** ** What a synchronisation leaves alone *)

Lemma sync_loop_frame (net : string -> ntp_outcome) (servers : list string) (s : App) :
  set_stdout (stdout s)
    (set_time_offset (time_offset s) (fst (sync_loop net servers s))) = s.
Proof.
  induction servers as [|server rest IH]; cbn.
  - destruct s; reflexivity.
  - destruct (net server); try exact IH; destruct s; reflexivity.
Qed.

(** X16.  Whatever the servers do, [sync_time] changes nothing but the
    stored offset and the printed output: session flags, display,
    listeners, windows, audio, pending callbacks and timer threads are as
    before (putting the old offset and output back gives the old state). *)
Theorem sync_time_touches_offset_and_output_only
    (net : string -> ntp_outcome) (s : App) :
  set_stdout (stdout s)
    (set_time_offset (time_offset s) (fst (sync_time net s))) = s.
Proof. apply sync_loop_frame. Qed.
